(** * StarFive DWMAC platform driver (dwmac-starfive.c)

    A shallow embedding of the three functions of the glue driver,
    [starfive_eth_fix_mac_speed], [starfive_dwmac_set_mode] and
    [starfive_dwmac_probe], over a model of the kernel services they call.

    The driver only talks to the rest of the kernel: clocks, the device tree,
    a syscon register map and the stmmac core.  The calls by which it acts on
    the kernel (log messages, clock requests, register writes, the hand-over
    to the stmmac core) are recorded, in order, in the [trace] of a [world];
    what the kernel answers, to these calls and to the driver's queries of
    the device tree, is taken from a [host], over which every theorem
    quantifies. *)

From Stdlib Require Import ZArith List String Bool Lia.
From ExtLib Require Import Structures.Monad Structures.MonadState.
From ExtLib Require Import Data.Monads.StateMonad Data.Monads.OptionMonad.
Import ListNotations.
Import MonadNotation.

Local Open Scope string_scope.
Local Open Scope Z_scope.
Local Open Scope list_scope.
Local Open Scope monad_scope.

#[local] Existing Instance Monad_stateT.

(** ** Machine integers *)

(** [unsigned int] is 32 bits wide, [unsigned long] 64 bits (riscv64). *)
Definition u32 (z : Z) : Z := z mod 2 ^ 32.
Definition u64 (z : Z) : Z := z mod 2 ^ 64.

(** Error numbers of errno-base.h. *)
Definition ENOENT : Z := 2.
Definition ENOMEM : Z := 12.
Definition ENODEV : Z := 19.
Definition EINVAL : Z := 22.

(** Link speeds of ethtool.h, in Mb/s. *)
Definition SPEED_10 : Z := 10.
Definition SPEED_100 : Z := 100.
Definition SPEED_1000 : Z := 1000.

(** The two mode codes of the driver (lines 16-17). *)
Definition MACPHYC_PHY_INFT_RMII : Z := 0x4.
Definition MACPHYC_PHY_INFT_RGMII : Z := 0x1.

(** ** Kernel objects *)

(** The enumerators of [phy_interface_t] (linux/phy.h). *)
Inductive phy_interface_t : Type :=
| PHY_INTERFACE_MODE_NA
| PHY_INTERFACE_MODE_INTERNAL
| PHY_INTERFACE_MODE_MII
| PHY_INTERFACE_MODE_GMII
| PHY_INTERFACE_MODE_SGMII
| PHY_INTERFACE_MODE_TBI
| PHY_INTERFACE_MODE_REVMII
| PHY_INTERFACE_MODE_RMII
| PHY_INTERFACE_MODE_REVRMII
| PHY_INTERFACE_MODE_RGMII
| PHY_INTERFACE_MODE_RGMII_ID
| PHY_INTERFACE_MODE_RGMII_RXID
| PHY_INTERFACE_MODE_RGMII_TXID
| PHY_INTERFACE_MODE_RTBI
| PHY_INTERFACE_MODE_SMII
| PHY_INTERFACE_MODE_XGMII
| PHY_INTERFACE_MODE_XLGMII
| PHY_INTERFACE_MODE_MOCA
| PHY_INTERFACE_MODE_QSGMII
| PHY_INTERFACE_MODE_TRGMII
| PHY_INTERFACE_MODE_100BASEX
| PHY_INTERFACE_MODE_1000BASEX
| PHY_INTERFACE_MODE_2500BASEX
| PHY_INTERFACE_MODE_5GBASER
| PHY_INTERFACE_MODE_RXAUI
| PHY_INTERFACE_MODE_XAUI
| PHY_INTERFACE_MODE_10GBASER
| PHY_INTERFACE_MODE_25GBASER
| PHY_INTERFACE_MODE_USXGMII
| PHY_INTERFACE_MODE_10GKR
| PHY_INTERFACE_MODE_QUSGMII
| PHY_INTERFACE_MODE_1000BASEKX.

(** Handles: a device-tree node, a clock and a register map are known to the
    driver only through a pointer, here a number. *)
Definition device_node : Type := nat.
Definition clk : Type := nat.
Definition regmap : Type := nat.

Record device : Type := {
  dev_name : string;
  of_node : device_node
}.

Record platform_device : Type := {
  pdev_dev : device
}.

(** A pointer returned by a function that reports errors with ERR_PTR. *)
Inductive ptr (A : Type) : Type :=
| Valid (a : A)
| ERR_PTR (err : Z).
Arguments Valid {A} a.
Arguments ERR_PTR {A} err.

(** [struct starfive_dwmac] (lines 19-24), once probe has filled it in. *)
Record starfive_dwmac : Type := {
  dev : device;
  clk_tx : clk;
  clk_gtx : clk;
  tx_use_rgmii_rxin_clk : bool
}.

(** The one callback this driver installs in [fix_mac_speed]. *)
Inductive fix_mac_speed_fn : Type :=
| fn_starfive_eth_fix_mac_speed.

(** The fields of [struct plat_stmmacenet_data] the driver reads or writes.
    [bsp_priv], [fix_mac_speed] and [init] are pointers: [None] is NULL.
    [dma_cfg_dche] is the field [dche] behind the pointer [dma_cfg]. *)
Record plat_stmmacenet_data : Type := {
  interface : phy_interface_t;
  bsp_priv : option starfive_dwmac;
  fix_mac_speed : option fix_mac_speed_fn;
  init : option nat;
  dma_cfg_dche : bool
}.

Record stmmac_resources : Type := {
  mac : Z
}.

(** [struct of_phandle_args]: the node and the cells behind a phandle. *)
Record of_phandle_args : Type := {
  np : device_node;
  args_count : Z;
  args : list Z
}.

(** ** The calls the driver makes *)

(** An argument of a log format. *)
Inductive log_arg : Type :=
| arg_uint (z : Z)
| arg_interface (i : phy_interface_t).

Inductive event : Type :=
| ev_dev_err (d : device) (fmt : string) (a : list log_arg)
| ev_dev_dbg (d : device) (fmt : string)
| ev_dev_err_probe (d : device) (err : Z) (fmt : string)
| ev_clk_set_rate (c : clk) (rate : Z)
| ev_devm_clk_get_enabled (d : device) (id : string)
| ev_of_node_put (n : device_node)
| ev_regmap_update_bits (map : regmap) (reg mask val : Z)
| ev_stmmac_dvr_probe (d : device) (plat : plat_stmmacenet_data)
    (res : stmmac_resources)
| ev_stmmac_remove_config_dt (pdev : platform_device)
    (plat : plat_stmmacenet_data).

(** What the driver can change: the calls made so far (oldest first), the
    contents of the registers behind each register map and the rate of each
    clock. *)
Record world : Type := {
  trace : list event;
  regs : regmap -> Z -> Z;
  rates : clk -> Z
}.

(** What the kernel answers.  A status is [0] or a negative errno.
    [uninit_ulong] and [uninit_uint] are what a local variable holds when it
    is read before any assignment. *)
Record host : Type := {
  clk_set_rate_status : clk -> Z -> Z;
  of_parse_phandle_with_fixed_args :
    device_node -> string -> Z -> Z -> Z * of_phandle_args;
  syscon_node_to_regmap : device_node -> ptr regmap;
  regmap_status : regmap -> Z -> Z;
  stmmac_get_platform_resources : platform_device -> Z * stmmac_resources;
  stmmac_probe_config_dt : platform_device -> Z -> ptr plat_stmmacenet_data;
  devm_kzalloc : bool;
  devm_clk_get_enabled_result : device -> string -> ptr clk;
  device_property_read_bool : device -> string -> bool;
  stmmac_dvr_probe_status :
    device -> plat_stmmacenet_data -> stmmac_resources -> Z;
  uninit_ulong : Z;
  uninit_uint : Z
}.

(** ** The monad of driver code

    A function of the driver runs from a [world] to a result and a [world],
    or to nothing when it dereferences a NULL pointer. *)
Definition M : Type -> Type := stateT world option.

Definition run {A : Type} (c : M A) (w : world) : option (A * world) :=
  runStateT c w.

Definition push (e : event) (w : world) : world :=
  {| trace := trace w ++ [e]; regs := regs w; rates := rates w |}.

Definition emit (e : event) : M unit :=
  mkStateT (fun w => Some (tt, push e w)).

Definition oops {A : Type} : M A := mkStateT (fun _ => None).

(** Reading through a pointer that may be NULL. *)
Definition deref {A : Type} (p : option A) : M A :=
  match p with
  | Some a => ret a
  | None => oops
  end.

(** Reading a local variable: [None] until it is assigned. *)
Definition load (garbage : Z) (v : option Z) : Z :=
  match v with
  | Some z => z
  | None => garbage
  end.

(** Modelled from the spec: [__ffs], a macro of the kernel's bitops headers
    that are not among the sources; the index of the lowest set bit of a
    64-bit word (the kernel leaves the result at word 0 undefined; the search
    below stops at bit 63). *)
Fixpoint ffs_from (fuel : nat) (i : Z) (word : Z) : Z :=
  match fuel with
  | O => i
  | S fuel' => if Z.testbit word i then i else ffs_from fuel' (i + 1) word
  end.

Definition __ffs (word : Z) : Z := ffs_from 63 0 word.

Section Driver.

Context (h : host).

(** *** Kernel services *)

Definition dev_err (d : device) (fmt : string) (a : list log_arg) : M unit :=
  emit (ev_dev_err d fmt a).

Definition dev_dbg (d : device) (fmt : string) : M unit :=
  emit (ev_dev_dbg d fmt).

(** Modelled from the spec: [dev_err_probe] of the driver core, which is not
    among the sources; it logs and hands back the error it was given. *)
Definition dev_err_probe (d : device) (err : Z) (fmt : string) : M Z :=
  emit (ev_dev_err_probe d err fmt) ;;
  ret err.

Definition set_rate (c : clk) (rate : Z) (w : world) : world :=
  {| trace := trace w;
     regs := regs w;
     rates := fun c' => if Nat.eqb c' c then rate else rates w c' |}.

(** Modelled from the spec: [clk_set_rate] of the clock framework, which is
    not among the sources; the request is recorded, and the clock takes the
    rate when the framework accepts the request. *)
Definition clk_set_rate (c : clk) (rate : Z) : M Z :=
  emit (ev_clk_set_rate c rate) ;;
  let err := clk_set_rate_status h c rate in
  if err =? 0 then modify (set_rate c rate) ;; ret 0
  else ret err.

Definition devm_clk_get_enabled (d : device) (id : string) : M (ptr clk) :=
  emit (ev_devm_clk_get_enabled d id) ;;
  ret (devm_clk_get_enabled_result h d id).

Definition of_node_put (n : device_node) : M unit :=
  emit (ev_of_node_put n).

Definition set_reg (map : regmap) (reg v : Z) (w : world) : world :=
  {| trace := trace w;
     regs := fun m r => if Nat.eqb m map && (r =? reg) then v else regs w m r;
     rates := rates w |}.

(** Modelled from the spec: [regmap_update_bits] of the kernel's regmap
    subsystem, which is not among the sources; a register write under a mask:
    the bits of [val] selected by [mask] replace those of the register, the
    other bits of the register stay.  When the bus access fails the register
    is not written and the status is returned. *)
Definition regmap_update_bits (map : regmap) (reg mask val : Z) : M Z :=
  emit (ev_regmap_update_bits map reg mask val) ;;
  let err := regmap_status h map reg in
  if err =? 0 then
    w <- get ;;
    let orig := regs w map reg in
    put (set_reg map reg (Z.lor (Z.land orig (Z.lnot mask)) (Z.land val mask)) w) ;;
    ret 0
  else ret err.

Definition stmmac_dvr_probe (d : device) (plat : plat_stmmacenet_data)
    (res : stmmac_resources) : M Z :=
  emit (ev_stmmac_dvr_probe d plat res) ;;
  ret (stmmac_dvr_probe_status h d plat res).

Definition stmmac_remove_config_dt (pdev : platform_device)
    (plat : plat_stmmacenet_data) : M unit :=
  emit (ev_stmmac_remove_config_dt pdev plat).

(** *** The driver *)

(** Lines 26-59.  [priv] is the [bsp_priv] the driver registered. *)
Definition starfive_eth_fix_mac_speed (dwmac : starfive_dwmac) (speed : Z)
    : M unit :=
  if tx_use_rgmii_rxin_clk dwmac then ret tt
  else
    rate <- (if speed =? SPEED_1000 then ret (Some 125000000)
             else if speed =? SPEED_100 then ret (Some 25000000)
             else if speed =? SPEED_10 then ret (Some 2500000)
             else
               dev_err (dev dwmac) "invalid speed %u" [arg_uint speed] ;;
               ret None) ;;
    let rate := load (u64 (uninit_ulong h)) rate in
    err <- clk_set_rate (clk_tx dwmac) rate ;;
    if err =? 0 then ret tt
    else dev_err (dev dwmac) "failed to set tx rate %lu" [arg_uint rate].

(** Lines 61-99. *)
Definition starfive_dwmac_set_mode (plat_dat : plat_stmmacenet_data) : M Z :=
  dwmac <- deref (bsp_priv plat_dat) ;;
  mode <- match interface plat_dat with
          | PHY_INTERFACE_MODE_RMII => ret (Some MACPHYC_PHY_INFT_RMII)
          | PHY_INTERFACE_MODE_RGMII
          | PHY_INTERFACE_MODE_RGMII_ID => ret (Some MACPHYC_PHY_INFT_RGMII)
          | _ =>
              dev_err (dev dwmac) "Unsupported interface %d"
                [arg_interface (interface plat_dat)] ;;
              ret None
          end ;;
  let (err, a) :=
    of_parse_phandle_with_fixed_args h (of_node (dev dwmac))
      "starfive,syscon" 2 0 in
  if negb (err =? 0) then
    dev_dbg (dev dwmac) "syscon reg not found" ;;
    ret (- EINVAL)
  else
    let reg := u32 (nth 0 a.(args) 0) in
    let mask := u32 (nth 1 a.(args) 0) in
    let regmap := syscon_node_to_regmap h a.(np) in
    of_node_put a.(np) ;;
    match regmap with
    | ERR_PTR e => ret e
    | Valid regmap =>
        let mode := load (u32 (uninit_uint h)) mode in
        regmap_update_bits regmap reg mask (u32 (Z.shiftl mode (__ffs mask)))
    end.

(** Lines 101-149. *)
Definition starfive_dwmac_probe (pdev : platform_device) : M Z :=
  let (err, stmmac_res) := stmmac_get_platform_resources h pdev in
  if negb (err =? 0) then ret err
  else
    match stmmac_probe_config_dt h pdev stmmac_res.(mac) with
    | ERR_PTR e =>
        dev_err (pdev_dev pdev) "dt configuration failed" [] ;;
        ret e
    | Valid plat_dat =>
        if negb (devm_kzalloc h) then ret (- ENOMEM)
        else
          tx <- devm_clk_get_enabled (pdev_dev pdev) "tx" ;;
          match tx with
          | ERR_PTR e =>
              dev_err_probe (pdev_dev pdev) e "error getting tx clock"
          | Valid tx =>
              gtx <- devm_clk_get_enabled (pdev_dev pdev) "gtx" ;;
              match gtx with
              | ERR_PTR e =>
                  dev_err_probe (pdev_dev pdev) e "error getting gtx clock"
              | Valid gtx =>
                  let dwmac :=
                    {| dev := pdev_dev pdev;
                       clk_tx := tx;
                       clk_gtx := gtx;
                       tx_use_rgmii_rxin_clk :=
                         device_property_read_bool h (pdev_dev pdev)
                           "starfive,tx-use-rgmii-clk" |} in
                  let plat_dat :=
                    {| interface := interface plat_dat;
                       bsp_priv := Some dwmac;
                       fix_mac_speed := Some fn_starfive_eth_fix_mac_speed;
                       init := None;
                       dma_cfg_dche := true |} in
                  _ <- starfive_dwmac_set_mode plat_dat ;;
                  err <- stmmac_dvr_probe (pdev_dev pdev) plat_dat stmmac_res ;;
                  if negb (err =? 0) then
                    stmmac_remove_config_dt pdev plat_dat ;;
                    ret err
                  else ret 0
              end
          end
    end.

End Driver.

(** ** Reading a trace *)

Definition is_clk_set_rate (e : event) : bool :=
  match e with
  | ev_clk_set_rate _ _ => true
  | _ => false
  end.

Definition is_regmap_update_bits (e : event) : bool :=
  match e with
  | ev_regmap_update_bits _ _ _ _ => true
  | _ => false
  end.

Definition is_stmmac_dvr_probe (e : event) : bool :=
  match e with
  | ev_stmmac_dvr_probe _ _ _ => true
  | _ => false
  end.

(** The clock-rate requests, the register writes and the calls of the stmmac
    core among some calls. *)
Definition clk_requests (evs : list event) : list event :=
  filter is_clk_set_rate evs.

Definition reg_writes (evs : list event) : list event :=
  filter is_regmap_update_bits evs.

Definition dvr_probes (evs : list event) : list event :=
  filter is_stmmac_dvr_probe evs.

(** ** A board

    The first Ethernet MAC of a JH7110 board: its syscon phandle names
    register 0xc of the always-on syscon, under mask 0x1c0000.  The
    parameters choose what the device tree declares and which kernel services
    fail. *)
Module JH7110.

Definition gmac0 : device :=
  {| dev_name := "16030000.ethernet"; of_node := 1%nat |}.

Definition pdev : platform_device := {| pdev_dev := gmac0 |}.

Definition aon_syscon : device_node := 2%nat.
Definition aon_regmap : regmap := 3%nat.
Definition gmac0_tx : clk := 4%nat.
Definition gmac0_gtx : clk := 5%nat.

Definition no_args : of_phandle_args :=
  {| np := 0%nat; args_count := 0; args := [] |}.

Definition syscon_args : of_phandle_args :=
  {| np := aon_syscon; args_count := 2; args := [0xc; 0x1c0000] |}.

Definition dt_plat (i : phy_interface_t) : plat_stmmacenet_data :=
  {| interface := i;
     bsp_priv := None;
     fix_mac_speed := None;
     init := None;
     dma_cfg_dche := false |}.

Definition board (i : phy_interface_t) (has_syscon has_tx has_gtx : bool)
    (rgmii_rxin : bool) (dvr_status : Z) : host :=
  {| clk_set_rate_status := fun _ _ => 0;
     of_parse_phandle_with_fixed_args := fun n prop _ _ =>
       if has_syscon && Nat.eqb n 1 && String.eqb prop "starfive,syscon"
       then (0, syscon_args)
       else (- ENOENT, no_args);
     syscon_node_to_regmap := fun n =>
       if Nat.eqb n aon_syscon then Valid aon_regmap else ERR_PTR (- ENODEV);
     regmap_status := fun _ _ => 0;
     stmmac_get_platform_resources := fun _ => (0, {| mac := 0 |});
     stmmac_probe_config_dt := fun _ _ => Valid (dt_plat i);
     devm_kzalloc := true;
     devm_clk_get_enabled_result := fun _ id =>
       if String.eqb id "tx" then
         if has_tx then Valid gmac0_tx else ERR_PTR (- ENOENT)
       else if String.eqb id "gtx" then
         if has_gtx then Valid gmac0_gtx else ERR_PTR (- ENOENT)
       else ERR_PTR (- ENOENT);
     device_property_read_bool := fun _ _ => rgmii_rxin;
     stmmac_dvr_probe_status := fun _ _ _ => dvr_status;
     uninit_ulong := 0xdeadbeef;
     uninit_uint := 0x5 |}.

(** The same board when the syscon driver has no register map to give. *)
Definition without_regmap (h : host) : host :=
  {| clk_set_rate_status := clk_set_rate_status h;
     of_parse_phandle_with_fixed_args := of_parse_phandle_with_fixed_args h;
     syscon_node_to_regmap := fun _ => ERR_PTR (- ENODEV);
     regmap_status := regmap_status h;
     stmmac_get_platform_resources := stmmac_get_platform_resources h;
     stmmac_probe_config_dt := stmmac_probe_config_dt h;
     devm_kzalloc := devm_kzalloc h;
     devm_clk_get_enabled_result := devm_clk_get_enabled_result h;
     device_property_read_bool := device_property_read_bool h;
     stmmac_dvr_probe_status := stmmac_dvr_probe_status h;
     uninit_ulong := uninit_ulong h;
     uninit_uint := uninit_uint h |}.

(** The record probe builds on this board, and the platform data it hands to
    the stmmac core. *)
Definition dwmac (rgmii_rxin : bool) : starfive_dwmac :=
  {| dev := gmac0;
     clk_tx := gmac0_tx;
     clk_gtx := gmac0_gtx;
     tx_use_rgmii_rxin_clk := rgmii_rxin |}.

Definition plat (i : phy_interface_t) (rgmii_rxin : bool)
    : plat_stmmacenet_data :=
  {| interface := i;
     bsp_priv := Some (dwmac rgmii_rxin);
     fix_mac_speed := Some fn_starfive_eth_fix_mac_speed;
     init := None;
     dma_cfg_dche := true |}.

(** At boot nothing was called, register 0xc holds 0x00ff00ff and the clocks
    stand still. *)
Definition boot : world :=
  {| trace := [];
     regs := fun _ r => if r =? 0xc then 0x00ff00ff else 0;
     rates := fun _ => 0 |}.

End JH7110.

(** ** Naming the paths of the driver *)

(** The mode code the switch of [starfive_dwmac_set_mode] assigns: none for
    an interface it has no case for. *)
Definition assigned_mode (i : phy_interface_t) : option Z :=
  match i with
  | PHY_INTERFACE_MODE_RMII => Some MACPHYC_PHY_INFT_RMII
  | PHY_INTERFACE_MODE_RGMII
  | PHY_INTERFACE_MODE_RGMII_ID => Some MACPHYC_PHY_INFT_RGMII
  | _ => None
  end.

(** The world after the switch: the default case has logged the interface. *)
Definition after_switch (dwmac : starfive_dwmac) (i : phy_interface_t)
    (w : world) : world :=
  match assigned_mode i with
  | Some _ => w
  | None =>
      push (ev_dev_err (dev dwmac) "Unsupported interface %d"
              [arg_interface i]) w
  end.

(** The mask the device tree supplies for a device: the second cell behind
    its syscon phandle. *)
Definition dt_mask (h : host) (d : device) : Z :=
  u32 (nth 1 (args (snd (of_parse_phandle_with_fixed_args h (of_node d)
                           "starfive,syscon" 2 0))) 0).

(** The platform data as probe sets it up (lines 132-139) before it calls
    [starfive_dwmac_set_mode] and the stmmac core. *)
Definition probe_plat_dat (h : host) (pdev : platform_device)
    (plat_dat : plat_stmmacenet_data) (tx gtx : clk) : plat_stmmacenet_data :=
  {| interface := interface plat_dat;
     bsp_priv :=
       Some {| dev := pdev_dev pdev;
               clk_tx := tx;
               clk_gtx := gtx;
               tx_use_rgmii_rxin_clk :=
                 device_property_read_bool h (pdev_dev pdev)
                   "starfive,tx-use-rgmii-clk" |};
     fix_mac_speed := Some fn_starfive_eth_fix_mac_speed;
     init := None;
     dma_cfg_dche := true |}.

(** The world in which probe calls [starfive_dwmac_set_mode]: both clocks
    have been acquired. *)
Definition clocks_acquired (pdev : platform_device) (w : world) : world :=
  push (ev_devm_clk_get_enabled (pdev_dev pdev) "gtx")
    (push (ev_devm_clk_get_enabled (pdev_dev pdev) "tx") w).

(** ** More names for calls and paths *)

Definition is_of_node_put (e : event) : bool :=
  match e with
  | ev_of_node_put _ => true
  | _ => false
  end.

Definition is_devm_clk_get_enabled (e : event) : bool :=
  match e with
  | ev_devm_clk_get_enabled _ _ => true
  | _ => false
  end.

Definition is_stmmac_remove_config_dt (e : event) : bool :=
  match e with
  | ev_stmmac_remove_config_dt _ _ => true
  | _ => false
  end.

(** The node references dropped, the clocks acquired and the removals of the
    device-tree configuration among some calls. *)
Definition node_puts (evs : list event) : list event :=
  filter is_of_node_put evs.

Definition clk_gets (evs : list event) : list event :=
  filter is_devm_clk_get_enabled evs.

Definition config_removals (evs : list event) : list event :=
  filter is_stmmac_remove_config_dt evs.

(** The calls of the switch of [starfive_dwmac_set_mode]. *)
Definition switch_events (dwmac : starfive_dwmac) (i : phy_interface_t)
    : list event :=
  match assigned_mode i with
  | Some _ => []
  | None => [ev_dev_err (dev dwmac) "Unsupported interface %d" [arg_interface i]]
  end.

(** The calls of one run of [starfive_dwmac_set_mode], in order. *)
Definition set_mode_events (h : host) (plat_dat : plat_stmmacenet_data)
    (dwmac : starfive_dwmac) : list event :=
  let r := of_parse_phandle_with_fixed_args h (of_node (dev dwmac))
             "starfive,syscon" 2 0 in
  switch_events dwmac (interface plat_dat) ++
  if negb (fst r =? 0) then [ev_dev_dbg (dev dwmac) "syscon reg not found"]
  else
    ev_of_node_put (np (snd r)) ::
    match syscon_node_to_regmap h (np (snd r)) with
    | ERR_PTR _ => []
    | Valid map =>
        let mask := u32 (nth 1 (args (snd r)) 0) in
        [ev_regmap_update_bits map (u32 (nth 0 (args (snd r)) 0)) mask
           (u32 (Z.shiftl (load (u32 (uninit_uint h))
                             (assigned_mode (interface plat_dat)))
                   (__ffs mask)))]
    end.

(** An error pointer carries an errno, which is never 0. *)
Definition err_ptrs_nonzero (h : host) : Prop :=
  (forall pdev m, stmmac_probe_config_dt h pdev m <> ERR_PTR 0) /\
  (forall d id, devm_clk_get_enabled_result h d id <> ERR_PTR 0).
(** The rate the switch of [starfive_eth_fix_mac_speed] assigns: none for a
    speed it has no case for. *)
Definition assigned_rate (speed : Z) : option Z :=
  if speed =? SPEED_1000 then Some 125000000
  else if speed =? SPEED_100 then Some 25000000
  else if speed =? SPEED_10 then Some 2500000
  else None.

(** The calls of one run of [starfive_eth_fix_mac_speed], in order. *)
Definition fix_mac_speed_events (h : host) (dwmac : starfive_dwmac)
    (speed : Z) : list event :=
  if tx_use_rgmii_rxin_clk dwmac then []
  else
    let rate := load (u64 (uninit_ulong h)) (assigned_rate speed) in
    match assigned_rate speed with
    | Some _ => []
    | None => [ev_dev_err (dev dwmac) "invalid speed %u" [arg_uint speed]]
    end ++
    ev_clk_set_rate (clk_tx dwmac) rate ::
    (if clk_set_rate_status h (clk_tx dwmac) rate =? 0 then []
     else [ev_dev_err (dev dwmac) "failed to set tx rate %lu"
             [arg_uint rate]]).
(** The record probe fills in (lines 122-135). *)
Definition probe_dwmac (h : host) (pdev : platform_device) (tx gtx : clk)
    : starfive_dwmac :=
  {| dev := pdev_dev pdev;
     clk_tx := tx;
     clk_gtx := gtx;
     tx_use_rgmii_rxin_clk :=
       device_property_read_bool h (pdev_dev pdev)
         "starfive,tx-use-rgmii-clk" |}.

(** The calls of one run of [starfive_dwmac_probe], in order. *)
Definition probe_events (h : host) (pdev : platform_device) : list event :=
  let r := stmmac_get_platform_resources h pdev in
  let d := pdev_dev pdev in
  if negb (fst r =? 0) then []
  else
    match stmmac_probe_config_dt h pdev (mac (snd r)) with
    | ERR_PTR e => [ev_dev_err d "dt configuration failed" []]
    | Valid plat_dat =>
        if negb (devm_kzalloc h) then []
        else
          ev_devm_clk_get_enabled d "tx" ::
          match devm_clk_get_enabled_result h d "tx" with
          | ERR_PTR e => [ev_dev_err_probe d e "error getting tx clock"]
          | Valid tx =>
              ev_devm_clk_get_enabled d "gtx" ::
              match devm_clk_get_enabled_result h d "gtx" with
              | ERR_PTR e => [ev_dev_err_probe d e "error getting gtx clock"]
              | Valid gtx =>
                  let plat := probe_plat_dat h pdev plat_dat tx gtx in
                  set_mode_events h plat (probe_dwmac h pdev tx gtx) ++
                  ev_stmmac_dvr_probe d plat (snd r) ::
                  (if stmmac_dvr_probe_status h d plat (snd r) =? 0 then []
                   else [ev_stmmac_remove_config_dt pdev plat])
              end
          end
    end.

(** What one run of [starfive_dwmac_probe] returns. *)
Definition probe_result (h : host) (pdev : platform_device) : Z :=
  let r := stmmac_get_platform_resources h pdev in
  let d := pdev_dev pdev in
  if negb (fst r =? 0) then fst r
  else
    match stmmac_probe_config_dt h pdev (mac (snd r)) with
    | ERR_PTR e => e
    | Valid plat_dat =>
        if negb (devm_kzalloc h) then - ENOMEM
        else
          match devm_clk_get_enabled_result h d "tx" with
          | ERR_PTR e => e
          | Valid tx =>
              match devm_clk_get_enabled_result h d "gtx" with
              | ERR_PTR e => e
              | Valid gtx =>
                  stmmac_dvr_probe_status h d
                    (probe_plat_dat h pdev plat_dat tx gtx) (snd r)
              end
          end
    end.
(** ** Kernel services that fail *)
Module Faults.

(** A host on which the platform resources are reported with status
    [resources], the device-tree configuration fails with [config] when that
    is an error, memory is there or not, and every clock-rate request has
    status [rate_status]; all else is as on [h]. *)
Definition failing (h : host) (resources : Z) (config : option Z)
    (memory : bool) (rate_status : Z) : host :=
  {| clk_set_rate_status := fun _ _ => rate_status;
     of_parse_phandle_with_fixed_args := of_parse_phandle_with_fixed_args h;
     syscon_node_to_regmap := syscon_node_to_regmap h;
     regmap_status := regmap_status h;
     stmmac_get_platform_resources := fun p =>
       (resources, snd (stmmac_get_platform_resources h p));
     stmmac_probe_config_dt :=
       match config with
       | Some e => fun _ _ => ERR_PTR e
       | None => stmmac_probe_config_dt h
       end;
     devm_kzalloc := memory;
     devm_clk_get_enabled_result := devm_clk_get_enabled_result h;
     device_property_read_bool := device_property_read_bool h;
     stmmac_dvr_probe_status := stmmac_dvr_probe_status h;
     uninit_ulong := uninit_ulong h;
     uninit_uint := uninit_uint h |}.

End Faults.

(** ** Running driver code *)

Lemma run_ret {A : Type} (a : A) (w : world) : run (ret a) w = Some (a, w).
Proof. reflexivity. Qed.

Lemma run_bind {A B : Type} (c : M A) (k : A -> M B) (w : world) :
  run (bind c k) w =
  match run c w with
  | Some (a, w') => run (k a) w'
  | None => None
  end.
Proof.
  unfold run. cbn. destruct (runStateT c w) as [[a w'] |]; reflexivity.
Qed.

Lemma run_emit (e : event) (w : world) : run (emit e) w = Some (tt, push e w).
Proof. reflexivity. Qed.

Lemma run_dev_err (d : device) (fmt : string) (a : list log_arg) (w : world) :
  run (dev_err d fmt a) w = Some (tt, push (ev_dev_err d fmt a) w).
Proof. reflexivity. Qed.

Lemma run_dev_dbg (d : device) (fmt : string) (w : world) :
  run (dev_dbg d fmt) w = Some (tt, push (ev_dev_dbg d fmt) w).
Proof. reflexivity. Qed.

Lemma run_dev_err_probe (d : device) (err : Z) (fmt : string) (w : world) :
  run (dev_err_probe d err fmt) w =
  Some (err, push (ev_dev_err_probe d err fmt) w).
Proof. reflexivity. Qed.

Lemma run_of_node_put (n : device_node) (w : world) :
  run (of_node_put n) w = Some (tt, push (ev_of_node_put n) w).
Proof. reflexivity. Qed.

Lemma run_devm_clk_get_enabled (h : host) (d : device) (id : string)
    (w : world) :
  run (devm_clk_get_enabled h d id) w =
  Some (devm_clk_get_enabled_result h d id,
        push (ev_devm_clk_get_enabled d id) w).
Proof. reflexivity. Qed.

Lemma run_stmmac_dvr_probe (h : host) (d : device)
    (plat : plat_stmmacenet_data) (res : stmmac_resources) (w : world) :
  run (stmmac_dvr_probe h d plat res) w =
  Some (stmmac_dvr_probe_status h d plat res,
        push (ev_stmmac_dvr_probe d plat res) w).
Proof. reflexivity. Qed.

Lemma run_stmmac_remove_config_dt (pdev : platform_device)
    (plat : plat_stmmacenet_data) (w : world) :
  run (stmmac_remove_config_dt pdev plat) w =
  Some (tt, push (ev_stmmac_remove_config_dt pdev plat) w).
Proof. reflexivity. Qed.

(** A clock-rate request always returns; it changes the rate only when the
    clock framework accepts it. *)
Lemma run_clk_set_rate (h : host) (c : clk) (rate : Z) (w : world) :
  run (clk_set_rate h c rate) w =
  Some (clk_set_rate_status h c rate,
        if clk_set_rate_status h c rate =? 0
        then set_rate c rate (push (ev_clk_set_rate c rate) w)
        else push (ev_clk_set_rate c rate) w).
Proof.
  unfold clk_set_rate. rewrite run_bind, run_emit.
  destruct (Z.eqb_spec (clk_set_rate_status h c rate) 0) as [E | E].
  - rewrite E. reflexivity.
  - reflexivity.
Qed.

Lemma run_regmap_update_bits (h : host) (map : regmap) (reg mask val : Z)
    (w : world) :
  run (regmap_update_bits h map reg mask val) w =
  Some (regmap_status h map reg,
        if regmap_status h map reg =? 0
        then set_reg map reg
               (Z.lor (Z.land (regs w map reg) (Z.lnot mask)) (Z.land val mask))
               (push (ev_regmap_update_bits map reg mask val) w)
        else push (ev_regmap_update_bits map reg mask val) w).
Proof.
  unfold regmap_update_bits. rewrite run_bind, run_emit.
  destruct (Z.eqb_spec (regmap_status h map reg) 0) as [E | E].
  - rewrite E. reflexivity.
  - reflexivity.
Qed.

Create Rewrite HintDb run.
#[local] Hint Rewrite @run_bind @run_ret run_emit run_dev_err run_dev_dbg
  run_dev_err_probe run_of_node_put run_devm_clk_get_enabled
  run_stmmac_dvr_probe run_stmmac_remove_config_dt run_clk_set_rate
  run_regmap_update_bits : run.

Ltac run_steps :=
  repeat (progress (autorewrite with run; cbn [load fst snd negb deref])).

(** ** The speed-change callback *)

(** C5: with the flag [tx_use_rgmii_rxin_clk] set, the callback does nothing
    at any speed: it returns at once, no call is made (so no clock-rate
    request) and the world is the one it started from. *)
Theorem fix_mac_speed_external_clock_noop (h : host) (dwmac : starfive_dwmac)
    (speed : Z) (w : world) :
  tx_use_rgmii_rxin_clk dwmac = true ->
  run (starfive_eth_fix_mac_speed h dwmac speed) w = Some (tt, w).
Proof.
  intros Hflag. unfold starfive_eth_fix_mac_speed. rewrite Hflag.
  apply run_ret.
Qed.

Lemma fix_mac_speed_external_clock_noop_witness :
  tx_use_rgmii_rxin_clk (JH7110.dwmac true) = true /\
  run (starfive_eth_fix_mac_speed
         (JH7110.board PHY_INTERFACE_MODE_RGMII true true true true 0)
         (JH7110.dwmac true) 1000) JH7110.boot
  = Some (tt, JH7110.boot).
Proof.
  split.
  - reflexivity.
  - apply (fix_mac_speed_external_clock_noop
             (JH7110.board PHY_INTERFACE_MODE_RGMII true true true true 0)
             (JH7110.dwmac true) 1000 JH7110.boot).
    reflexivity.
Defined.

(** C2: with the flag unset, speed 1000 asks for 125000000 Hz, speed 100 for
    25000000 Hz and speed 10 for 2500000 Hz: the callback returns, the one
    clock-rate request among its calls is that rate on the clock [clk_tx],
    and the clock runs at that rate when the request is accepted. *)
Theorem fix_mac_speed_requests_documented_rate (h : host)
    (dwmac : starfive_dwmac) (speed rate : Z) (w : world) :
  tx_use_rgmii_rxin_clk dwmac = false ->
  In (speed, rate) [(1000, 125000000); (100, 25000000); (10, 2500000)] ->
  exists (w' : world) (evs : list event),
    run (starfive_eth_fix_mac_speed h dwmac speed) w = Some (tt, w') /\
    trace w' = trace w ++ evs /\
    clk_requests evs = [ev_clk_set_rate (clk_tx dwmac) rate] /\
    (clk_set_rate_status h (clk_tx dwmac) rate = 0 ->
     rates w' (clk_tx dwmac) = rate).
Proof.
  intros Hflag Hin. unfold starfive_eth_fix_mac_speed. rewrite Hflag.
  cbn in Hin.
  destruct Hin as [E | [E | [E | []]]]; inversion E; subst; clear E;
    cbn [Z.eqb SPEED_1000 SPEED_100 SPEED_10 Pos.eqb]; run_steps;
    match goal with
    | |- context [clk_set_rate_status ?a ?b ?c =? 0] =>
        destruct (Z.eqb_spec (clk_set_rate_status a b c) 0) as [E | E]
    end; run_steps.
  all: eexists; eexists; split; [reflexivity |].
  all: cbn [trace push set_rate]; rewrite <- ?app_assoc.
  all: split; [reflexivity |].
  all: split; [reflexivity |].
  all: try (intros _; cbn; rewrite Nat.eqb_refl; reflexivity).
  all: intros E'; contradiction.
Qed.

Lemma fix_mac_speed_requests_documented_rate_witness :
  exists (w' : world) (evs : list event),
    run (starfive_eth_fix_mac_speed
           (JH7110.board PHY_INTERFACE_MODE_RGMII true true true false 0)
           (JH7110.dwmac false) 100) JH7110.boot = Some (tt, w') /\
    trace w' = trace JH7110.boot ++ evs /\
    clk_requests evs = [ev_clk_set_rate JH7110.gmac0_tx 25000000] /\
    (0 = 0 -> rates w' JH7110.gmac0_tx = 25000000).
Proof.
  apply (fix_mac_speed_requests_documented_rate
           (JH7110.board PHY_INTERFACE_MODE_RGMII true true true false 0)
           (JH7110.dwmac false) 100 25000000 JH7110.boot).
  - reflexivity.
  - simpl. right. left. reflexivity.
Defined.

(** Outside its table the callback logs the speed and still asks for a rate:
    the one the variable [rate] holds without having been assigned. *)
Lemma fix_mac_speed_unknown_speed (h : host) (dwmac : starfive_dwmac)
    (speed : Z) (w : world) :
  tx_use_rgmii_rxin_clk dwmac = false ->
  speed <> 1000 -> speed <> 100 -> speed <> 10 ->
  exists (w' : world) (evs : list event),
    run (starfive_eth_fix_mac_speed h dwmac speed) w = Some (tt, w') /\
    trace w' =
      trace w ++ ev_dev_err (dev dwmac) "invalid speed %u" [arg_uint speed]
              :: evs /\
    clk_requests evs =
      [ev_clk_set_rate (clk_tx dwmac) (u64 (uninit_ulong h))].
Proof.
  intros Hflag H1000 H100 H10. unfold starfive_eth_fix_mac_speed.
  rewrite Hflag.
  destruct (Z.eqb_spec speed SPEED_1000) as [E | _]; [contradiction |].
  destruct (Z.eqb_spec speed SPEED_100) as [E | _]; [contradiction |].
  destruct (Z.eqb_spec speed SPEED_10) as [E | _]; [contradiction |].
  run_steps.
  destruct (Z.eqb_spec
              (clk_set_rate_status h (clk_tx dwmac) (u64 (uninit_ulong h))) 0)
    as [E | E]; run_steps.
  all: eexists; eexists; split; [reflexivity |].
  all: cbn [trace push set_rate]; rewrite <- ?app_assoc.
  all: split; reflexivity.
Qed.

(** C4: at speed 2500, with the flag unset, the callback logs the speed and
    then asks the clock [clk_tx] for the rate left in the unassigned variable
    (0xdeadbeef on this board): a clock-rate request is made. *)
Theorem fix_mac_speed_2500_still_sets_rate :
  exists w' : world,
    run (starfive_eth_fix_mac_speed
           (JH7110.board PHY_INTERFACE_MODE_RGMII true true true false 0)
           (JH7110.dwmac false) 2500) JH7110.boot = Some (tt, w') /\
    trace w' =
      [ev_dev_err JH7110.gmac0 "invalid speed %u" [arg_uint 2500];
       ev_clk_set_rate JH7110.gmac0_tx 0xdeadbeef] /\
    rates w' JH7110.gmac0_tx = 0xdeadbeef.
Proof.
  eexists. split; [reflexivity |]. split; reflexivity.
Qed.

(** ** The mode register

    First the lowest set bit of a word. *)

Lemma ffs_from_lowest (fuel : nat) (word : Z) :
  forall i : Z,
    0 <= i ->
    (exists j, i <= j <= i + Z.of_nat fuel /\ Z.testbit word j = true) ->
    0 <= ffs_from fuel i word /\
    Z.testbit word (ffs_from fuel i word) = true /\
    forall k, i <= k < ffs_from fuel i word -> Z.testbit word k = false.
Proof.
  induction fuel as [| fuel IH]; intros i Hi [j [Hj Hbit]].
  - cbn [ffs_from]. assert (j = i) by lia. subst j.
    repeat split; [lia | assumption | intros k Hk; lia].
  - cbn [ffs_from]. destruct (Z.testbit word i) eqn:Ei.
    + repeat split; [lia | assumption | intros k Hk; lia].
    + assert (Hne : j <> i) by (intros ->; congruence).
      destruct (IH (i + 1)) as (Hpos & Hset & Hlow).
      * lia.
      * exists j. split; [lia | assumption].
      * repeat split; [lia | assumption |].
        intros k Hk. destruct (Z.eq_dec k i) as [-> | Hki]; [assumption |].
        apply Hlow. lia.
Qed.

Lemma ffs_lowest_set_bit (word : Z) :
  0 < word < 2 ^ 64 ->
  Z.testbit word (__ffs word) = true /\
  forall k, 0 <= k < __ffs word -> Z.testbit word k = false.
Proof.
  intros [Hpos Hlt]. unfold __ffs.
  destruct (ffs_from_lowest 63 word 0) as (_ & Hset & Hlow).
  - lia.
  - exists (Z.log2 word). split.
    + pose proof (Z.log2_nonneg word).
      assert (Z.log2 word < 64) by (apply Z.log2_lt_pow2; lia). lia.
    + apply Z.bit_log2. assumption.
  - split; assumption.
Qed.

Lemma u32_range (z : Z) : 0 <= u32 z < 2 ^ 32.
Proof. unfold u32. apply Z.mod_pos_bound. lia. Qed.

Lemma u32_mask_lowest_set_bit (z : Z) :
  u32 z <> 0 ->
  Z.testbit (u32 z) (__ffs (u32 z)) = true /\
  forall k, 0 <= k < __ffs (u32 z) -> Z.testbit (u32 z) k = false.
Proof.
  intros Hnz. pose proof (u32_range z). apply ffs_lowest_set_bit. lia.
Qed.

(** C1: for RMII the mode code is 0x4 and for RGMII it is 0x1; when the
    syscon phandle and its register map are found, [starfive_dwmac_set_mode]
    makes one [regmap_update_bits] call on the register and under the mask of
    the device tree, with the value [mode << __ffs(mask)] (as an unsigned
    int); it returns the status of that call, the register then holds the
    value under the mask, and [__ffs(mask)] is the lowest set bit of a mask
    that is not 0. *)
Theorem set_mode_writes_documented_mode (h : host)
    (plat_dat : plat_stmmacenet_data) (dwmac : starfive_dwmac)
    (a : of_phandle_args) (map : regmap) (mode : Z) (w : world) :
  bsp_priv plat_dat = Some dwmac ->
  interface plat_dat = PHY_INTERFACE_MODE_RMII /\ mode = 0x4 \/
  interface plat_dat = PHY_INTERFACE_MODE_RGMII /\ mode = 0x1 ->
  of_parse_phandle_with_fixed_args h (of_node (dev dwmac))
    "starfive,syscon" 2 0 = (0, a) ->
  syscon_node_to_regmap h (np a) = Valid map ->
  let reg := u32 (nth 0 (args a) 0) in
  let mask := u32 (nth 1 (args a) 0) in
  let val := u32 (Z.shiftl mode (__ffs mask)) in
  exists w' : world,
    run (starfive_dwmac_set_mode h plat_dat) w
      = Some (regmap_status h map reg, w') /\
    trace w' =
      trace w ++ [ev_of_node_put (np a);
                  ev_regmap_update_bits map reg mask val] /\
    (regmap_status h map reg = 0 ->
     regs w' map reg =
       Z.lor (Z.land (regs w map reg) (Z.lnot mask)) (Z.land val mask)) /\
    (mask <> 0 ->
     Z.testbit mask (__ffs mask) = true /\
     forall k, 0 <= k < __ffs mask -> Z.testbit mask k = false).
Proof.
  intros Hpriv Hmode Hargs Hmap reg mask val.
  unfold starfive_dwmac_set_mode. rewrite Hpriv.
  assert (Hsel : interface plat_dat = PHY_INTERFACE_MODE_RMII /\
                 mode = MACPHYC_PHY_INFT_RMII \/
                 interface plat_dat = PHY_INTERFACE_MODE_RGMII /\
                 mode = MACPHYC_PHY_INFT_RGMII) by exact Hmode.
  clear Hmode.
  destruct Hsel as [[Hi Hm] | [Hi Hm]]; rewrite Hi; run_steps;
    rewrite Hargs; cbn [Z.eqb negb]; run_steps; rewrite Hmap; run_steps;
    fold reg mask; rewrite <- Hm; fold val.
  all: destruct (Z.eqb_spec (regmap_status h map reg) 0) as [E | E].
  all: eexists; split; [reflexivity |].
  all: cbn [trace push set_reg regs]; rewrite <- ?app_assoc.
  all: split; [reflexivity |].
  all: split; [| apply u32_mask_lowest_set_bit].
  all: try (intros _; rewrite Nat.eqb_refl, Z.eqb_refl; reflexivity).
  all: intros E'; contradiction.
Qed.

Lemma set_mode_writes_documented_mode_witness :
  exists w' : world,
    run (starfive_dwmac_set_mode
           (JH7110.board PHY_INTERFACE_MODE_RMII true true true false 0)
           (JH7110.plat PHY_INTERFACE_MODE_RMII false)) JH7110.boot
      = Some (0, w') /\
    trace w' =
      [ev_of_node_put JH7110.aon_syscon;
       ev_regmap_update_bits JH7110.aon_regmap 0xc 0x1c0000 0x100000] /\
    (0 = 0 -> regs w' JH7110.aon_regmap 0xc = 0x00f300ff) /\
    (0x1c0000 <> 0 ->
     Z.testbit 0x1c0000 18 = true /\
     forall k, 0 <= k < 18 -> Z.testbit 0x1c0000 k = false).
Proof.
  apply (set_mode_writes_documented_mode
           (JH7110.board PHY_INTERFACE_MODE_RMII true true true false 0)
           (JH7110.plat PHY_INTERFACE_MODE_RMII false)
           (JH7110.dwmac false) JH7110.syscon_args JH7110.aon_regmap 0x4
           JH7110.boot).
  - reflexivity.
  - left. split; reflexivity.
  - reflexivity.
  - reflexivity.
Defined.

(** [starfive_dwmac_set_mode], path by path. *)
Lemma set_mode_paths (h : host) (plat_dat : plat_stmmacenet_data)
    (dwmac : starfive_dwmac) (w : world) :
  bsp_priv plat_dat = Some dwmac ->
  run (starfive_dwmac_set_mode h plat_dat) w =
  let w0 := after_switch dwmac (interface plat_dat) w in
  let r := of_parse_phandle_with_fixed_args h (of_node (dev dwmac))
             "starfive,syscon" 2 0 in
  if negb (fst r =? 0) then
    Some (- EINVAL, push (ev_dev_dbg (dev dwmac) "syscon reg not found") w0)
  else
    let reg := u32 (nth 0 (args (snd r)) 0) in
    let mask := u32 (nth 1 (args (snd r)) 0) in
    let w1 := push (ev_of_node_put (np (snd r))) w0 in
    match syscon_node_to_regmap h (np (snd r)) with
    | ERR_PTR e => Some (e, w1)
    | Valid map =>
        let mode := load (u32 (uninit_uint h))
                      (assigned_mode (interface plat_dat)) in
        run (regmap_update_bits h map reg mask
               (u32 (Z.shiftl mode (__ffs mask)))) w1
    end.
Proof.
  intros Hpriv. unfold starfive_dwmac_set_mode, after_switch.
  rewrite Hpriv. cbn [deref]. rewrite run_bind, run_ret, run_bind.
  cbv zeta.
  destruct (of_parse_phandle_with_fixed_args h (of_node (dev dwmac))
              "starfive,syscon" 2 0) as [err a].
  cbn [fst snd].
  destruct (interface plat_dat); cbn [assigned_mode];
    autorewrite with run; destruct (negb (err =? 0));
    autorewrite with run; try reflexivity;
    destruct (syscon_node_to_regmap h (np a)); reflexivity.
Qed.

(** A write under a mask leaves every bit outside the mask as it was. *)
Lemma masked_write_keeps_bit (orig mask val i : Z) :
  Z.testbit mask i = false ->
  Z.testbit (Z.lor (Z.land orig (Z.lnot mask)) (Z.land val mask)) i =
  Z.testbit orig i.
Proof.
  intros Hbit. destruct (Z.neg_nonneg_cases i) as [Hneg | Hpos].
  - rewrite !Z.testbit_neg_r by assumption. reflexivity.
  - rewrite Z.lor_spec, !Z.land_spec, Z.lnot_spec, Hbit by assumption.
    cbn [negb]. rewrite Bool.andb_true_r, Bool.andb_false_r, Bool.orb_false_r.
    reflexivity.
Qed.

Lemma regs_after_update_bits (h : host) (map : regmap) (reg mask val : Z)
    (w w' : world) (r : Z) :
  run (regmap_update_bits h map reg mask val) w = Some (r, w') ->
  forall (m : regmap) (reg' i : Z),
    Z.testbit mask i = false ->
    Z.testbit (regs w' m reg') i = Z.testbit (regs w m reg') i.
Proof.
  rewrite run_regmap_update_bits. intros Hrun m reg' i Hbit.
  inversion Hrun; subst; clear Hrun.
  destruct (regmap_status h map reg =? 0); [| reflexivity].
  cbn [regs set_reg push].
  destruct (Nat.eqb_spec m map) as [-> | _]; [| reflexivity].
  destruct (Z.eqb_spec reg' reg) as [-> | _]; [| reflexivity].
  cbn [andb]. apply masked_write_keeps_bit. assumption.
Qed.

(** With its private data in place, [starfive_dwmac_set_mode] returns. *)
Lemma set_mode_returns (h : host) (plat_dat : plat_stmmacenet_data)
    (dwmac : starfive_dwmac) (w : world) :
  bsp_priv plat_dat = Some dwmac ->
  exists (r : Z) (w' : world),
    run (starfive_dwmac_set_mode h plat_dat) w = Some (r, w').
Proof.
  intros Hpriv. rewrite (set_mode_paths h plat_dat dwmac w Hpriv). cbv zeta.
  destruct (negb _); [eexists; eexists; reflexivity |].
  destruct (syscon_node_to_regmap h _) as [map | e].
  - rewrite run_regmap_update_bits. eexists. eexists. reflexivity.
  - eexists. eexists. reflexivity.
Qed.

(** C9: [starfive_dwmac_set_mode] returns, and whatever the registers held
    before, every bit of every register that lies outside the mask of the
    device tree is afterwards what it was: the write is a write under that
    mask. *)
Theorem set_mode_keeps_bits_outside_mask (h : host)
    (plat_dat : plat_stmmacenet_data) (dwmac : starfive_dwmac) (w : world) :
  bsp_priv plat_dat = Some dwmac ->
  exists (r : Z) (w' : world),
    run (starfive_dwmac_set_mode h plat_dat) w = Some (r, w') /\
    forall (m : regmap) (reg i : Z),
      Z.testbit (dt_mask h (dev dwmac)) i = false ->
      Z.testbit (regs w' m reg) i = Z.testbit (regs w m reg) i.
Proof.
  intros Hpriv. rewrite (set_mode_paths h plat_dat dwmac w Hpriv).
  unfold dt_mask. cbv zeta.
  destruct (negb (fst (of_parse_phandle_with_fixed_args h (of_node (dev dwmac))
                         "starfive,syscon" 2 0) =? 0)).
  - eexists. eexists. split; [reflexivity |]. intros m reg i _.
    unfold after_switch. destruct (assigned_mode (interface plat_dat));
      reflexivity.
  - destruct (syscon_node_to_regmap h _) as [map | e].
    + match goal with
      | |- context [run ?c ?w1] => destruct (run c w1) as [[r w'] |] eqn:Hrun
      end.
      * exists r, w'. split; [reflexivity |]. intros m reg i Hbit.
        rewrite (regs_after_update_bits _ _ _ _ _ _ _ _ Hrun m reg i Hbit).
        unfold after_switch. destruct (assigned_mode (interface plat_dat));
          reflexivity.
      * rewrite run_regmap_update_bits in Hrun. discriminate.
    + eexists. eexists. split; [reflexivity |]. intros m reg i _.
      unfold after_switch. destruct (assigned_mode (interface plat_dat));
        reflexivity.
Qed.

Lemma set_mode_keeps_bits_outside_mask_witness :
  exists (r : Z) (w' : world),
    run (starfive_dwmac_set_mode
           (JH7110.board PHY_INTERFACE_MODE_RGMII true true true false 0)
           (JH7110.plat PHY_INTERFACE_MODE_RGMII false)) JH7110.boot
      = Some (r, w') /\
    forall (m : regmap) (reg i : Z),
      Z.testbit 0x1c0000 i = false ->
      Z.testbit (regs w' m reg) i = Z.testbit (regs JH7110.boot m reg) i.
Proof.
  apply (set_mode_keeps_bits_outside_mask
           (JH7110.board PHY_INTERFACE_MODE_RGMII true true true false 0)
           (JH7110.plat PHY_INTERFACE_MODE_RGMII false)
           (JH7110.dwmac false) JH7110.boot).
  reflexivity.
Defined.

(** On the board the write does change the register, inside the mask. *)
Example set_mode_rgmii_on_board :
  exists w' : world,
    run (starfive_dwmac_set_mode
           (JH7110.board PHY_INTERFACE_MODE_RGMII true true true false 0)
           (JH7110.plat PHY_INTERFACE_MODE_RGMII false)) JH7110.boot
      = Some (0, w') /\
    regs JH7110.boot JH7110.aon_regmap 0xc = 0x00ff00ff /\
    regs w' JH7110.aon_regmap 0xc = 0x00e700ff.
Proof.
  eexists. split; [reflexivity |]. split; reflexivity.
Qed.

(** C10: [PHY_INTERFACE_MODE_RGMII_ID] is a third interface with a case of
    its own label: [starfive_dwmac_set_mode] behaves on it exactly as on
    [PHY_INTERFACE_MODE_RGMII], and when the phandle and the register map are
    found it writes mode code 0x1, shifted to the mask, with no error
    logged. *)
Theorem set_mode_rgmii_id_as_rgmii (h : host)
    (plat_rgmii plat_id : plat_stmmacenet_data) (dwmac : starfive_dwmac)
    (a : of_phandle_args) (map : regmap) (w : world) :
  interface plat_rgmii = PHY_INTERFACE_MODE_RGMII ->
  interface plat_id = PHY_INTERFACE_MODE_RGMII_ID ->
  bsp_priv plat_rgmii = Some dwmac ->
  bsp_priv plat_id = Some dwmac ->
  of_parse_phandle_with_fixed_args h (of_node (dev dwmac))
    "starfive,syscon" 2 0 = (0, a) ->
  syscon_node_to_regmap h (np a) = Valid map ->
  let reg := u32 (nth 0 (args a) 0) in
  let mask := u32 (nth 1 (args a) 0) in
  run (starfive_dwmac_set_mode h plat_id) w
    = run (starfive_dwmac_set_mode h plat_rgmii) w /\
  exists w' : world,
    run (starfive_dwmac_set_mode h plat_id) w
      = Some (regmap_status h map reg, w') /\
    trace w' =
      trace w ++ [ev_of_node_put (np a);
                  ev_regmap_update_bits map reg mask
                    (u32 (Z.shiftl 0x1 (__ffs mask)))].
Proof.
  intros Hrgmii Hid Hpriv Hpriv' Hargs Hmap reg mask.
  rewrite (set_mode_paths h plat_id dwmac w Hpriv').
  rewrite (set_mode_paths h plat_rgmii dwmac w Hpriv).
  rewrite Hrgmii, Hid, Hargs. cbv zeta. cbn [fst snd Z.eqb negb].
  rewrite Hmap. unfold after_switch. cbn [assigned_mode load].
  split; [reflexivity |].
  rewrite run_regmap_update_bits. fold reg mask. eexists.
  split; [reflexivity |].
  destruct (regmap_status h map reg =? 0);
    cbn [trace push set_reg]; rewrite <- ?app_assoc; reflexivity.
Qed.

Lemma set_mode_rgmii_id_as_rgmii_witness :
  run (starfive_dwmac_set_mode
         (JH7110.board PHY_INTERFACE_MODE_RGMII_ID true true true false 0)
         (JH7110.plat PHY_INTERFACE_MODE_RGMII_ID false)) JH7110.boot
    = run (starfive_dwmac_set_mode
             (JH7110.board PHY_INTERFACE_MODE_RGMII_ID true true true false 0)
             (JH7110.plat PHY_INTERFACE_MODE_RGMII false)) JH7110.boot /\
  exists w' : world,
    run (starfive_dwmac_set_mode
           (JH7110.board PHY_INTERFACE_MODE_RGMII_ID true true true false 0)
           (JH7110.plat PHY_INTERFACE_MODE_RGMII_ID false)) JH7110.boot
      = Some (0, w') /\
    trace w' =
      [ev_of_node_put JH7110.aon_syscon;
       ev_regmap_update_bits JH7110.aon_regmap 0xc 0x1c0000 0x40000].
Proof.
  apply (set_mode_rgmii_id_as_rgmii
           (JH7110.board PHY_INTERFACE_MODE_RGMII_ID true true true false 0)
           (JH7110.plat PHY_INTERFACE_MODE_RGMII false)
           (JH7110.plat PHY_INTERFACE_MODE_RGMII_ID false)
           (JH7110.dwmac false) JH7110.syscon_args JH7110.aon_regmap
           JH7110.boot); reflexivity.
Defined.

(** An interface without a case is logged, and the register is written all
    the same, with the mode the variable [mode] holds unassigned. *)
Lemma set_mode_unsupported_writes (h : host)
    (plat_dat : plat_stmmacenet_data) (dwmac : starfive_dwmac)
    (a : of_phandle_args) (map : regmap) (w : world) :
  bsp_priv plat_dat = Some dwmac ->
  interface plat_dat <> PHY_INTERFACE_MODE_RMII ->
  interface plat_dat <> PHY_INTERFACE_MODE_RGMII ->
  interface plat_dat <> PHY_INTERFACE_MODE_RGMII_ID ->
  of_parse_phandle_with_fixed_args h (of_node (dev dwmac))
    "starfive,syscon" 2 0 = (0, a) ->
  syscon_node_to_regmap h (np a) = Valid map ->
  let reg := u32 (nth 0 (args a) 0) in
  let mask := u32 (nth 1 (args a) 0) in
  exists w' : world,
    run (starfive_dwmac_set_mode h plat_dat) w
      = Some (regmap_status h map reg, w') /\
    trace w' =
      trace w ++ [ev_dev_err (dev dwmac) "Unsupported interface %d"
                    [arg_interface (interface plat_dat)];
                  ev_of_node_put (np a);
                  ev_regmap_update_bits map reg mask
                    (u32 (Z.shiftl (u32 (uninit_uint h)) (__ffs mask)))].
Proof.
  intros Hpriv Hrmii Hrgmii Hid Hargs Hmap reg mask.
  rewrite (set_mode_paths h plat_dat dwmac w Hpriv).
  rewrite Hargs. cbv zeta. cbn [fst snd Z.eqb negb]. rewrite Hmap.
  unfold after_switch.
  assert (Hnone : assigned_mode (interface plat_dat) = None)
    by (destruct (interface plat_dat); try reflexivity; congruence).
  rewrite Hnone. cbn [load]. rewrite run_regmap_update_bits. fold reg mask.
  eexists. split; [reflexivity |].
  destruct (regmap_status h map reg =? 0);
    cbn [trace push set_reg]; rewrite <- ?app_assoc; reflexivity.
Qed.

(** C3: on [PHY_INTERFACE_MODE_MII], which has no case, with the phandle and
    the register map found, [starfive_dwmac_set_mode] logs the interface and
    does not return there: it goes on to write the register, with the mode
    left in the unassigned variable (0x5 on this board), and register 0xc
    changes from 0x00ff00ff to 0x00f700ff. *)
Theorem set_mode_mii_still_writes :
  exists w' : world,
    run (starfive_dwmac_set_mode
           (JH7110.board PHY_INTERFACE_MODE_MII true true true false 0)
           (JH7110.plat PHY_INTERFACE_MODE_MII false)) JH7110.boot
      = Some (0, w') /\
    trace w' =
      [ev_dev_err JH7110.gmac0 "Unsupported interface %d"
         [arg_interface PHY_INTERFACE_MODE_MII];
       ev_of_node_put JH7110.aon_syscon;
       ev_regmap_update_bits JH7110.aon_regmap 0xc 0x1c0000 0x140000] /\
    regs JH7110.boot JH7110.aon_regmap 0xc = 0x00ff00ff /\
    regs w' JH7110.aon_regmap 0xc = 0x00f700ff.
Proof.
  eexists. split; [reflexivity |]. repeat split; reflexivity.
Qed.

(** ** Probe *)

(** Probe, once its resources are there: whatever [starfive_dwmac_set_mode]
    returns is dropped, and the stmmac core is called next. *)
Lemma probe_after_resources (h : host) (pdev : platform_device)
    (res : stmmac_resources) (plat_dat : plat_stmmacenet_data) (tx gtx : clk)
    (w : world) :
  stmmac_get_platform_resources h pdev = (0, res) ->
  stmmac_probe_config_dt h pdev (mac res) = Valid plat_dat ->
  devm_kzalloc h = true ->
  devm_clk_get_enabled_result h (pdev_dev pdev) "tx" = Valid tx ->
  devm_clk_get_enabled_result h (pdev_dev pdev) "gtx" = Valid gtx ->
  let plat := probe_plat_dat h pdev plat_dat tx gtx in
  let status := stmmac_dvr_probe_status h (pdev_dev pdev) plat res in
  run (starfive_dwmac_probe h pdev) w =
  match run (starfive_dwmac_set_mode h plat) (clocks_acquired pdev w) with
  | Some (_, w1) =>
      Some (status,
            if status =? 0
            then push (ev_stmmac_dvr_probe (pdev_dev pdev) plat res) w1
            else push (ev_stmmac_remove_config_dt pdev plat)
                   (push (ev_stmmac_dvr_probe (pdev_dev pdev) plat res) w1))
  | None => None
  end.
Proof.
  intros Hres Hdt Hmem Htx Hgtx plat status.
  unfold starfive_dwmac_probe. rewrite Hres. cbn [Z.eqb negb].
  rewrite Hdt, Hmem. cbn [negb].
  rewrite run_bind, run_devm_clk_get_enabled, Htx.
  rewrite run_bind, run_devm_clk_get_enabled, Hgtx.
  rewrite run_bind. fold (clocks_acquired pdev w).
  subst status plat. unfold probe_plat_dat.
  match goal with
  | |- context [run (starfive_dwmac_set_mode h ?p) ?w0] =>
      destruct (run (starfive_dwmac_set_mode h p) w0) as [[r w1] |];
        [| reflexivity]
  end.
  rewrite run_bind, run_stmmac_dvr_probe.
  match goal with
  | |- context [negb (?s =? 0)] =>
      destruct (Z.eqb_spec s 0) as [E | E]; cbn [negb]
  end.
  - rewrite E. reflexivity.
  - autorewrite with run. reflexivity.
Qed.

(** C7: once probe has its resources, [starfive_dwmac_set_mode] returns
    some value, and whichever value [r] that is, probe goes on in the same
    way: its next call is [stmmac_dvr_probe], and what probe returns is the
    status of that call, never [r]. *)
Theorem probe_ignores_set_mode_result (h : host) (pdev : platform_device)
    (res : stmmac_resources) (plat_dat : plat_stmmacenet_data) (tx gtx : clk)
    (w : world) :
  stmmac_get_platform_resources h pdev = (0, res) ->
  stmmac_probe_config_dt h pdev (mac res) = Valid plat_dat ->
  devm_kzalloc h = true ->
  devm_clk_get_enabled_result h (pdev_dev pdev) "tx" = Valid tx ->
  devm_clk_get_enabled_result h (pdev_dev pdev) "gtx" = Valid gtx ->
  let plat := probe_plat_dat h pdev plat_dat tx gtx in
  let status := stmmac_dvr_probe_status h (pdev_dev pdev) plat res in
  (exists (r : Z) (w1 : world),
     run (starfive_dwmac_set_mode h plat) (clocks_acquired pdev w)
       = Some (r, w1)) /\
  forall (r : Z) (w1 : world),
    run (starfive_dwmac_set_mode h plat) (clocks_acquired pdev w)
      = Some (r, w1) ->
    exists w' : world,
      run (starfive_dwmac_probe h pdev) w = Some (status, w') /\
      trace w' =
        trace w1 ++ ev_stmmac_dvr_probe (pdev_dev pdev) plat res
                 :: (if status =? 0 then []
                     else [ev_stmmac_remove_config_dt pdev plat]).
Proof.
  intros Hres Hdt Hmem Htx Hgtx plat status. split.
  - eapply set_mode_returns. reflexivity.
  - intros r w1 Hrun.
    rewrite (probe_after_resources h pdev res plat_dat tx gtx w
               Hres Hdt Hmem Htx Hgtx).
    fold plat. rewrite Hrun. fold status. eexists. split; [reflexivity |].
    destruct (status =? 0); cbn [trace push]; rewrite <- ?app_assoc;
      reflexivity.
Qed.

Lemma probe_ignores_set_mode_result_witness :
  (exists (r : Z) (w1 : world),
     run (starfive_dwmac_set_mode
            (JH7110.board PHY_INTERFACE_MODE_RGMII false true true false 0)
            (JH7110.plat PHY_INTERFACE_MODE_RGMII false))
         (clocks_acquired JH7110.pdev JH7110.boot) = Some (r, w1)) /\
  forall (r : Z) (w1 : world),
    run (starfive_dwmac_set_mode
           (JH7110.board PHY_INTERFACE_MODE_RGMII false true true false 0)
           (JH7110.plat PHY_INTERFACE_MODE_RGMII false))
        (clocks_acquired JH7110.pdev JH7110.boot) = Some (r, w1) ->
    exists w' : world,
      run (starfive_dwmac_probe
             (JH7110.board PHY_INTERFACE_MODE_RGMII false true true false 0)
             JH7110.pdev) JH7110.boot = Some (0, w') /\
      trace w' =
        trace w1 ++ [ev_stmmac_dvr_probe JH7110.gmac0
                       (JH7110.plat PHY_INTERFACE_MODE_RGMII false)
                       {| mac := 0 |}].
Proof.
  apply (probe_ignores_set_mode_result
           (JH7110.board PHY_INTERFACE_MODE_RGMII false true true false 0)
           JH7110.pdev {| mac := 0 |}
           (JH7110.dt_plat PHY_INTERFACE_MODE_RGMII)
           JH7110.gmac0_tx JH7110.gmac0_gtx JH7110.boot); reflexivity.
Defined.

(** The four outcomes of [starfive_dwmac_set_mode] on the board, each
    followed by the call of the stmmac core: the mode is written (0), the
    interface has no case (0 again, after the stray write), the phandle is
    not found (-EINVAL), the register map is not found (-ENODEV). *)
Example probe_after_each_outcome :
  let outcome (h : host) (i : phy_interface_t) :=
    option_map fst
      (run (starfive_dwmac_set_mode h (JH7110.plat i false))
         (clocks_acquired JH7110.pdev JH7110.boot)) in
  let probed (h : host) :=
    option_map (fun p => (fst p, dvr_probes (trace (snd p))))
      (run (starfive_dwmac_probe h JH7110.pdev) JH7110.boot) in
  let rgmii := JH7110.board PHY_INTERFACE_MODE_RGMII true true true false 0 in
  let mii := JH7110.board PHY_INTERFACE_MODE_MII true true true false 0 in
  let bare := JH7110.board PHY_INTERFACE_MODE_RGMII false true true false 0 in
  let mapless := JH7110.without_regmap rgmii in
  outcome rgmii PHY_INTERFACE_MODE_RGMII = Some 0 /\
  outcome mii PHY_INTERFACE_MODE_MII = Some 0 /\
  outcome bare PHY_INTERFACE_MODE_RGMII = Some (- EINVAL) /\
  outcome mapless PHY_INTERFACE_MODE_RGMII = Some (- ENODEV) /\
  probed rgmii =
    Some (0, [ev_stmmac_dvr_probe JH7110.gmac0
                (JH7110.plat PHY_INTERFACE_MODE_RGMII false) {| mac := 0 |}]) /\
  probed mii =
    Some (0, [ev_stmmac_dvr_probe JH7110.gmac0
                (JH7110.plat PHY_INTERFACE_MODE_MII false) {| mac := 0 |}]) /\
  probed bare =
    Some (0, [ev_stmmac_dvr_probe JH7110.gmac0
                (JH7110.plat PHY_INTERFACE_MODE_RGMII false) {| mac := 0 |}]) /\
  probed mapless =
    Some (0, [ev_stmmac_dvr_probe JH7110.gmac0
                (JH7110.plat PHY_INTERFACE_MODE_RGMII false) {| mac := 0 |}]).
Proof.
  repeat split; reflexivity.
Qed.

(** C8: when probe has its platform resources and the clock [tx], or the
    clock [gtx] after it, cannot be acquired, probe returns the error of that
    clock at once: among its calls there is no [stmmac_dvr_probe] and no
    register write. *)
Theorem probe_clock_failure_aborts (h : host) (pdev : platform_device)
    (res : stmmac_resources) (plat_dat : plat_stmmacenet_data) (e : Z)
    (w : world) :
  stmmac_get_platform_resources h pdev = (0, res) ->
  stmmac_probe_config_dt h pdev (mac res) = Valid plat_dat ->
  devm_kzalloc h = true ->
  devm_clk_get_enabled_result h (pdev_dev pdev) "tx" = ERR_PTR e \/
  (exists tx : clk,
     devm_clk_get_enabled_result h (pdev_dev pdev) "tx" = Valid tx /\
     devm_clk_get_enabled_result h (pdev_dev pdev) "gtx" = ERR_PTR e) ->
  exists (w' : world) (evs : list event),
    run (starfive_dwmac_probe h pdev) w = Some (e, w') /\
    trace w' = trace w ++ evs /\
    dvr_probes evs = [] /\
    reg_writes evs = [] /\
    regs w' = regs w.
Proof.
  intros Hres Hdt Hmem Hclk.
  unfold starfive_dwmac_probe. rewrite Hres. cbn [Z.eqb negb].
  rewrite Hdt, Hmem. cbn [negb].
  rewrite run_bind, run_devm_clk_get_enabled.
  destruct Hclk as [Htx | [tx [Htx Hgtx]]]; rewrite Htx.
  - rewrite run_dev_err_probe. eexists. eexists. split; [reflexivity |].
    cbn [trace push regs]. rewrite <- ?app_assoc.
    repeat split; reflexivity.
  - rewrite run_bind, run_devm_clk_get_enabled, Hgtx, run_dev_err_probe.
    eexists. eexists. split; [reflexivity |].
    cbn [trace push regs]. rewrite <- ?app_assoc.
    repeat split; reflexivity.
Qed.

Lemma probe_clock_failure_aborts_witness :
  exists (w' : world) (evs : list event),
    run (starfive_dwmac_probe
           (JH7110.board PHY_INTERFACE_MODE_RGMII true true false false 0)
           JH7110.pdev) JH7110.boot = Some (- ENOENT, w') /\
    trace w' = trace JH7110.boot ++ evs /\
    dvr_probes evs = [] /\
    reg_writes evs = [] /\
    regs w' = regs JH7110.boot.
Proof.
  apply (probe_clock_failure_aborts
           (JH7110.board PHY_INTERFACE_MODE_RGMII true true false false 0)
           JH7110.pdev {| mac := 0 |}
           (JH7110.dt_plat PHY_INTERFACE_MODE_RGMII) (- ENOENT) JH7110.boot).
  - reflexivity.
  - reflexivity.
  - reflexivity.
  - right. exists JH7110.gmac0_tx. split; reflexivity.
Defined.

(** When the phandle is not found, [starfive_dwmac_set_mode] logs at debug
    level and returns -EINVAL; it leaves the registers alone. *)
Lemma set_mode_lookup_failure (h : host) (plat_dat : plat_stmmacenet_data)
    (dwmac : starfive_dwmac) (w : world) :
  bsp_priv plat_dat = Some dwmac ->
  fst (of_parse_phandle_with_fixed_args h (of_node (dev dwmac))
         "starfive,syscon" 2 0) <> 0 ->
  exists (w' : world) (evs : list event),
    run (starfive_dwmac_set_mode h plat_dat) w = Some (- EINVAL, w') /\
    trace w' =
      trace w ++ evs ++ [ev_dev_dbg (dev dwmac) "syscon reg not found"] /\
    reg_writes evs = [] /\
    dvr_probes evs = [] /\
    regs w' = regs w.
Proof.
  intros Hpriv Hfail. rewrite (set_mode_paths h plat_dat dwmac w Hpriv).
  cbv zeta.
  destruct (Z.eqb_spec
              (fst (of_parse_phandle_with_fixed_args h (of_node (dev dwmac))
                      "starfive,syscon" 2 0)) 0) as [E | _];
    [contradiction |].
  cbn [negb]. unfold after_switch.
  destruct (assigned_mode (interface plat_dat)).
  - exists (push (ev_dev_dbg (dev dwmac) "syscon reg not found") w), [].
    repeat split; reflexivity.
  - eexists.
    exists [ev_dev_err (dev dwmac) "Unsupported interface %d"
              [arg_interface (interface plat_dat)]].
    split; [reflexivity |].
    cbn [trace push regs]. rewrite <- app_assoc.
    repeat split; reflexivity.
Qed.

(** C6, as amended: when the syscon phandle is not found during probe,
    [starfive_dwmac_set_mode] returns -EINVAL after the debug message, and no
    register is written; probe itself does not return that error: it calls
    [stmmac_dvr_probe] and returns the status of that call. *)
Theorem probe_syscon_lookup_failure (h : host) (pdev : platform_device)
    (res : stmmac_resources) (plat_dat : plat_stmmacenet_data) (tx gtx : clk)
    (w : world) :
  stmmac_get_platform_resources h pdev = (0, res) ->
  stmmac_probe_config_dt h pdev (mac res) = Valid plat_dat ->
  devm_kzalloc h = true ->
  devm_clk_get_enabled_result h (pdev_dev pdev) "tx" = Valid tx ->
  devm_clk_get_enabled_result h (pdev_dev pdev) "gtx" = Valid gtx ->
  fst (of_parse_phandle_with_fixed_args h (of_node (pdev_dev pdev))
         "starfive,syscon" 2 0) <> 0 ->
  let plat := probe_plat_dat h pdev plat_dat tx gtx in
  exists (w1 w' : world) (evs : list event),
    run (starfive_dwmac_set_mode h plat) (clocks_acquired pdev w)
      = Some (- EINVAL, w1) /\
    run (starfive_dwmac_probe h pdev) w
      = Some (stmmac_dvr_probe_status h (pdev_dev pdev) plat res, w') /\
    trace w' = trace w ++ evs /\
    In (ev_dev_dbg (pdev_dev pdev) "syscon reg not found") evs /\
    reg_writes evs = [] /\
    dvr_probes evs = [ev_stmmac_dvr_probe (pdev_dev pdev) plat res] /\
    regs w' = regs w.
Proof.
  intros Hres Hdt Hmem Htx Hgtx Hfail plat.
  destruct (set_mode_lookup_failure h plat _ (clocks_acquired pdev w)
              eq_refl Hfail) as (w1 & evs & Hrun & Htrace & Hwr & Hdvr & Hregs).
  rewrite (probe_after_resources h pdev res plat_dat tx gtx w
             Hres Hdt Hmem Htx Hgtx).
  fold plat. rewrite Hrun. cbn [dev] in Htrace.
  exists w1. eexists.
  exists ([ev_devm_clk_get_enabled (pdev_dev pdev) "tx";
           ev_devm_clk_get_enabled (pdev_dev pdev) "gtx"]
          ++ evs
          ++ [ev_dev_dbg (pdev_dev pdev) "syscon reg not found"]
          ++ ev_stmmac_dvr_probe (pdev_dev pdev) plat res
          :: (if stmmac_dvr_probe_status h (pdev_dev pdev) plat res =? 0
              then []
              else [ev_stmmac_remove_config_dt pdev plat])).
  split; [reflexivity |]. split; [reflexivity |]. split.
  { destruct (_ =? 0); cbn [trace push]; rewrite Htrace;
      cbn [trace push clocks_acquired]; rewrite <- ?app_assoc; reflexivity. }
  split.
  { apply in_or_app. right. apply in_or_app. right. left. reflexivity. }
  unfold reg_writes, dvr_probes in *.
  rewrite !filter_app, Hwr, Hdvr.
  destruct (_ =? 0); cbn [regs push]; rewrite Hregs; repeat split; reflexivity.
Qed.

Lemma probe_syscon_lookup_failure_witness :
  exists (w1 w' : world) (evs : list event),
    run (starfive_dwmac_set_mode
           (JH7110.board PHY_INTERFACE_MODE_RGMII false true true false 0)
           (JH7110.plat PHY_INTERFACE_MODE_RGMII false))
        (clocks_acquired JH7110.pdev JH7110.boot) = Some (- EINVAL, w1) /\
    run (starfive_dwmac_probe
           (JH7110.board PHY_INTERFACE_MODE_RGMII false true true false 0)
           JH7110.pdev) JH7110.boot = Some (0, w') /\
    trace w' = trace JH7110.boot ++ evs /\
    In (ev_dev_dbg JH7110.gmac0 "syscon reg not found") evs /\
    reg_writes evs = [] /\
    dvr_probes evs =
      [ev_stmmac_dvr_probe JH7110.gmac0
         (JH7110.plat PHY_INTERFACE_MODE_RGMII false) {| mac := 0 |}] /\
    regs w' = regs JH7110.boot.
Proof.
  apply (probe_syscon_lookup_failure
           (JH7110.board PHY_INTERFACE_MODE_RGMII false true true false 0)
           JH7110.pdev {| mac := 0 |}
           (JH7110.dt_plat PHY_INTERFACE_MODE_RGMII)
           JH7110.gmac0_tx JH7110.gmac0_gtx JH7110.boot).
  - reflexivity.
  - reflexivity.
  - reflexivity.
  - reflexivity.
  - reflexivity.
  - discriminate.
Defined.

(** C6, as stated, fails: on a board whose device tree has no syscon phandle
    the lookup fails with -ENOENT, and probe returns 0, not -EINVAL. *)
Lemma probe_without_syscon_returns_zero :
  fst (of_parse_phandle_with_fixed_args
         (JH7110.board PHY_INTERFACE_MODE_RGMII false true true false 0)
         (of_node (pdev_dev JH7110.pdev)) "starfive,syscon" 2 0) = - ENOENT /\
  (exists w' : world,
     run (starfive_dwmac_probe
            (JH7110.board PHY_INTERFACE_MODE_RGMII false true true false 0)
            JH7110.pdev) JH7110.boot = Some (0, w')) /\
  0 <> - EINVAL.
Proof.
  split; [reflexivity |]. split; [eexists; reflexivity |]. discriminate.
Qed.

(** ** More on the mode register *)

Lemma trace_after_switch (dwmac : starfive_dwmac) (i : phy_interface_t)
    (w : world) :
  trace (after_switch dwmac i w) = trace w ++ switch_events dwmac i /\
  regs (after_switch dwmac i w) = regs w /\
  rates (after_switch dwmac i w) = rates w.
Proof.
  unfold after_switch, switch_events. destruct (assigned_mode i).
  - rewrite app_nil_r. repeat split; reflexivity.
  - repeat split; reflexivity.
Qed.

(** One run of [starfive_dwmac_set_mode]: it returns, its calls are
    [set_mode_events], and it leaves the clocks alone. *)
Lemma set_mode_trace (h : host) (plat_dat : plat_stmmacenet_data)
    (dwmac : starfive_dwmac) (w : world) :
  bsp_priv plat_dat = Some dwmac ->
  exists (r : Z) (w' : world),
    run (starfive_dwmac_set_mode h plat_dat) w = Some (r, w') /\
    trace w' = trace w ++ set_mode_events h plat_dat dwmac /\
    rates w' = rates w.
Proof.
  intros Hpriv. rewrite (set_mode_paths h plat_dat dwmac w Hpriv).
  unfold set_mode_events. cbv zeta.
  destruct (trace_after_switch dwmac (interface plat_dat) w)
    as (Ht & _ & Hr).
  destruct (negb _).
  - eexists. eexists. split; [reflexivity |].
    cbn [trace push rates]. rewrite Ht, Hr, <- app_assoc.
    split; reflexivity.
  - destruct (syscon_node_to_regmap h _) as [map | e].
    + rewrite run_regmap_update_bits. eexists. eexists.
      split; [reflexivity |].
      destruct (regmap_status h map _ =? 0);
        cbn [trace push set_reg rates]; rewrite Ht, Hr, <- !app_assoc;
        split; reflexivity.
    + eexists. eexists. split; [reflexivity |].
      cbn [trace push rates]. rewrite Ht, Hr, <- app_assoc.
      split; reflexivity.
Qed.

(** X10: when the phandle is found but the syscon has no register map for
    its node, [starfive_dwmac_set_mode] returns the error of
    [syscon_node_to_regmap]; it has dropped its reference to the node, made
    no register write and left the registers as they were. *)
Theorem set_mode_regmap_failure (h : host) (plat_dat : plat_stmmacenet_data)
    (dwmac : starfive_dwmac) (a : of_phandle_args) (e : Z) (w : world) :
  bsp_priv plat_dat = Some dwmac ->
  of_parse_phandle_with_fixed_args h (of_node (dev dwmac))
    "starfive,syscon" 2 0 = (0, a) ->
  syscon_node_to_regmap h (np a) = ERR_PTR e ->
  exists (w' : world) (evs : list event),
    run (starfive_dwmac_set_mode h plat_dat) w = Some (e, w') /\
    trace w' = trace w ++ evs /\
    node_puts evs = [ev_of_node_put (np a)] /\
    reg_writes evs = [] /\
    regs w' = regs w.
Proof.
  intros Hpriv Hargs Hmap.
  rewrite (set_mode_paths h plat_dat dwmac w Hpriv), Hargs.
  cbv zeta. cbn [fst snd Z.eqb negb]. rewrite Hmap.
  destruct (trace_after_switch dwmac (interface plat_dat) w)
    as (Ht & Hg & _).
  eexists. exists (switch_events dwmac (interface plat_dat)
                   ++ [ev_of_node_put (np a)]).
  split; [reflexivity |]. cbn [trace push regs].
  rewrite Ht, Hg, <- app_assoc. split; [reflexivity |].
  unfold node_puts, reg_writes, switch_events.
  destruct (assigned_mode (interface plat_dat)); repeat split; reflexivity.
Qed.

Lemma set_mode_regmap_failure_witness :
  exists (w' : world) (evs : list event),
    run (starfive_dwmac_set_mode
           (JH7110.without_regmap
              (JH7110.board PHY_INTERFACE_MODE_RGMII true true true false 0))
           (JH7110.plat PHY_INTERFACE_MODE_RGMII false)) JH7110.boot
      = Some (- ENODEV, w') /\
    trace w' = trace JH7110.boot ++ evs /\
    node_puts evs = [ev_of_node_put JH7110.aon_syscon] /\
    reg_writes evs = [] /\
    regs w' = regs JH7110.boot.
Proof.
  apply (set_mode_regmap_failure
           (JH7110.without_regmap
              (JH7110.board PHY_INTERFACE_MODE_RGMII true true true false 0))
           (JH7110.plat PHY_INTERFACE_MODE_RGMII false)
           (JH7110.dwmac false) JH7110.syscon_args (- ENODEV) JH7110.boot);
    reflexivity.
Defined.

(** X11: [starfive_dwmac_set_mode] drops the node reference it got from the
    phandle lookup exactly once when the lookup succeeded, whether or not a
    register map is found, and never when the lookup failed. *)
Theorem set_mode_puts_node_once (h : host) (plat_dat : plat_stmmacenet_data)
    (dwmac : starfive_dwmac) (w : world) :
  bsp_priv plat_dat = Some dwmac ->
  let r := of_parse_phandle_with_fixed_args h (of_node (dev dwmac))
             "starfive,syscon" 2 0 in
  exists (ret : Z) (w' : world) (evs : list event),
    run (starfive_dwmac_set_mode h plat_dat) w = Some (ret, w') /\
    trace w' = trace w ++ evs /\
    node_puts evs =
      (if fst r =? 0 then [ev_of_node_put (np (snd r))] else []).
Proof.
  intros Hpriv r.
  destruct (set_mode_trace h plat_dat dwmac w Hpriv)
    as (ret & w' & Hrun & Ht & _).
  exists ret, w', (set_mode_events h plat_dat dwmac).
  split; [exact Hrun |]. split; [exact Ht |].
  unfold set_mode_events, node_puts, switch_events. cbv zeta. fold r.
  rewrite filter_app.
  destruct (assigned_mode (interface plat_dat)); cbn [filter app];
    destruct (fst r =? 0); cbn [negb filter is_of_node_put];
    try reflexivity;
    destruct (syscon_node_to_regmap h (np (snd r))); reflexivity.
Qed.

Lemma set_mode_puts_node_once_witness :
  exists (ret : Z) (w' : world) (evs : list event),
    run (starfive_dwmac_set_mode
           (JH7110.board PHY_INTERFACE_MODE_RMII true true true false 0)
           (JH7110.plat PHY_INTERFACE_MODE_RMII false)) JH7110.boot
      = Some (ret, w') /\
    trace w' = trace JH7110.boot ++ evs /\
    node_puts evs = [ev_of_node_put JH7110.aon_syscon].
Proof.
  apply (set_mode_puts_node_once
           (JH7110.board PHY_INTERFACE_MODE_RMII true true true false 0)
           (JH7110.plat PHY_INTERFACE_MODE_RMII false)
           (JH7110.dwmac false) JH7110.boot).
  reflexivity.
Defined.

(** X12: [starfive_dwmac_set_mode] leaves every clock rate alone, and a
    register whose content differs afterwards is the one the device tree
    names: the lookup succeeded, the register belongs to the map of the
    phandle's node, its offset is the first cell, and the function
    returned 0. *)
Theorem set_mode_changes_only_dt_register (h : host)
    (plat_dat : plat_stmmacenet_data) (dwmac : starfive_dwmac) (w : world) :
  bsp_priv plat_dat = Some dwmac ->
  let r := of_parse_phandle_with_fixed_args h (of_node (dev dwmac))
             "starfive,syscon" 2 0 in
  exists (ret : Z) (w' : world),
    run (starfive_dwmac_set_mode h plat_dat) w = Some (ret, w') /\
    rates w' = rates w /\
    forall (m : regmap) (reg : Z),
      regs w' m reg <> regs w m reg ->
      fst r = 0 /\
      syscon_node_to_regmap h (np (snd r)) = Valid m /\
      reg = u32 (nth 0 (args (snd r)) 0) /\
      ret = 0.
Proof.
  intros Hpriv r. rewrite (set_mode_paths h plat_dat dwmac w Hpriv).
  cbv zeta. fold r.
  destruct (trace_after_switch dwmac (interface plat_dat) w)
    as (_ & Hg & Hr).
  destruct (Z.eqb_spec (fst r) 0) as [E | E]; cbn [negb].
  - destruct (syscon_node_to_regmap h (np (snd r))) as [map | e].
    + rewrite run_regmap_update_bits.
      destruct (Z.eqb_spec (regmap_status h map (u32 (nth 0 (args (snd r)) 0))) 0)
        as [E' | E'].
      * eexists. eexists. split; [reflexivity |].
        cbn [rates regs set_reg push]. rewrite Hg, Hr.
        split; [reflexivity |]. intros m reg.
        destruct (Nat.eqb_spec m map) as [Em | _];
          [| cbn [andb]; congruence].
        destruct (Z.eqb_spec reg (u32 (nth 0 (args (snd r)) 0)))
          as [Er | _]; [| cbn [andb]; congruence].
        intros _. subst m. repeat split; assumption.
      * eexists. eexists. split; [reflexivity |].
        cbn [rates regs push]. rewrite Hg, Hr.
        split; [reflexivity |]. intros m reg Hneq. congruence.
    + eexists. eexists. split; [reflexivity |].
      cbn [rates regs push]. rewrite Hg, Hr.
      split; [reflexivity |]. intros m reg Hneq. congruence.
  - eexists. eexists. split; [reflexivity |].
    cbn [rates regs push]. rewrite Hg, Hr.
    split; [reflexivity |]. intros m reg Hneq. congruence.
Qed.

Lemma set_mode_changes_only_dt_register_witness :
  exists (ret : Z) (w' : world),
    run (starfive_dwmac_set_mode
           (JH7110.board PHY_INTERFACE_MODE_RMII true true true false 0)
           (JH7110.plat PHY_INTERFACE_MODE_RMII false)) JH7110.boot
      = Some (ret, w') /\
    rates w' = rates JH7110.boot /\
    forall (m : regmap) (reg : Z),
      regs w' m reg <> regs JH7110.boot m reg ->
      0 = 0 /\
      Valid JH7110.aon_regmap = Valid m /\
      reg = 0xc /\
      ret = 0.
Proof.
  apply (set_mode_changes_only_dt_register
           (JH7110.board PHY_INTERFACE_MODE_RMII true true true false 0)
           (JH7110.plat PHY_INTERFACE_MODE_RMII false)
           (JH7110.dwmac false) JH7110.boot).
  reflexivity.
Defined.

(** Inside the mask a write under a mask stores the bit of the value. *)
Lemma masked_write_takes_bit (orig mask val i : Z) :
  Z.testbit mask i = true ->
  Z.testbit (Z.lor (Z.land orig (Z.lnot mask)) (Z.land val mask)) i =
  Z.testbit val i.
Proof.
  intros Hbit. destruct (Z.neg_nonneg_cases i) as [Hneg | Hpos].
  - rewrite Z.testbit_neg_r in Hbit by assumption. discriminate.
  - rewrite Z.lor_spec, !Z.land_spec, Z.lnot_spec, Hbit by assumption.
    cbn [negb]. rewrite Bool.andb_true_r, Bool.andb_false_r. reflexivity.
Qed.


Lemma u32_testbit_low (z i : Z) :
  0 <= i < 32 -> Z.testbit (u32 z) i = Z.testbit z i.
Proof. intros Hi. unfold u32. apply Z.mod_pow2_bits_low. lia. Qed.

Lemma u32_testbit_high (z i : Z) :
  32 <= i -> Z.testbit (u32 z) i = false.
Proof. intros Hi. unfold u32. apply Z.mod_pow2_bits_high. lia. Qed.

(** X13: for RMII, RGMII and RGMII_ID, when the write is accepted and the
    mask has three bits set from its lowest set bit on, the field of the
    register at that bit reads back as the mode code (0x4, 0x1, 0x1). *)
Theorem set_mode_field_holds_mode (h : host)
    (plat_dat : plat_stmmacenet_data) (dwmac : starfive_dwmac)
    (a : of_phandle_args) (map : regmap) (mode : Z) (w : world) :
  bsp_priv plat_dat = Some dwmac ->
  In (interface plat_dat, mode)
    [(PHY_INTERFACE_MODE_RMII, 0x4);
     (PHY_INTERFACE_MODE_RGMII, 0x1);
     (PHY_INTERFACE_MODE_RGMII_ID, 0x1)] ->
  of_parse_phandle_with_fixed_args h (of_node (dev dwmac))
    "starfive,syscon" 2 0 = (0, a) ->
  syscon_node_to_regmap h (np a) = Valid map ->
  let reg := u32 (nth 0 (args a) 0) in
  let mask := u32 (nth 1 (args a) 0) in
  regmap_status h map reg = 0 ->
  (forall k, 0 <= k < 3 -> Z.testbit mask (__ffs mask + k) = true) ->
  exists w' : world,
    run (starfive_dwmac_set_mode h plat_dat) w = Some (0, w') /\
    Z.land (Z.shiftr (regs w' map reg) (__ffs mask)) 7 = mode.
Proof.
  intros Hpriv Hmode Hargs Hmap reg mask Hok Hfield.
  rewrite (set_mode_paths h plat_dat dwmac w Hpriv), Hargs.
  cbv zeta. cbn [fst snd Z.eqb negb]. rewrite Hmap.
  fold reg mask. rewrite run_regmap_update_bits, Hok. cbn [Z.eqb].
  eexists. split; [reflexivity |].
  cbn [regs set_reg push]. rewrite Nat.eqb_refl, Z.eqb_refl. cbn [andb].
  destruct (trace_after_switch dwmac (interface plat_dat) w)
    as (_ & Hg & _).
  rewrite Hg.
  assert (Hsome : assigned_mode (interface plat_dat) = Some mode /\
                  Z.land mode (Z.ones 3) = mode).
  { cbn in Hmode.
    destruct Hmode as [E | [E | [E | []]]]; injection E as Hi Hm;
      rewrite <- Hi, <- Hm; split; reflexivity. }
  destruct Hsome as [Hsome Hsmall]. rewrite Hsome. cbn [load].
  pose proof (Hfield 0 ltac:(lia)) as Hf0. rewrite Z.add_0_r in Hf0.
  assert (Hf : 0 <= __ffs mask).
  { destruct (Z.neg_nonneg_cases (__ffs mask)) as [Hneg | Hpos];
      [| assumption].
    rewrite Z.testbit_neg_r in Hf0 by assumption. discriminate. }
  assert (Hhi : __ffs mask + 2 < 32).
  { destruct (Z.lt_ge_cases (__ffs mask + 2) 32) as [Hlt | Hge];
      [assumption |].
    pose proof (Hfield 2 ltac:(lia)) as Hf2. unfold mask in Hf2 at 1.
    rewrite u32_testbit_high in Hf2 by assumption. discriminate. }
  rewrite <- Hsmall at 2. change 7 with (Z.ones 3).
  apply Z.bits_inj'. intros n Hn. rewrite !Z.land_spec.
  destruct (Z.lt_ge_cases n 3) as [Hlt | Hge].
  - rewrite Z.shiftr_spec by assumption.
    rewrite masked_write_takes_bit
      by (rewrite Z.add_comm; apply Hfield; lia).
    rewrite u32_testbit_low by lia.
    rewrite Z.shiftl_spec by lia.
    replace (n + __ffs mask - __ffs mask) with n by lia. reflexivity.
  - rewrite Z.ones_spec_high by lia. rewrite !Bool.andb_false_r.
    reflexivity.
Qed.

Lemma set_mode_field_holds_mode_witness :
  exists w' : world,
    run (starfive_dwmac_set_mode
           (JH7110.board PHY_INTERFACE_MODE_RMII true true true false 0)
           (JH7110.plat PHY_INTERFACE_MODE_RMII false)) JH7110.boot
      = Some (0, w') /\
    Z.land (Z.shiftr (regs w' JH7110.aon_regmap 0xc) 18) 7 = 0x4.
Proof.
  apply (set_mode_field_holds_mode
           (JH7110.board PHY_INTERFACE_MODE_RMII true true true false 0)
           (JH7110.plat PHY_INTERFACE_MODE_RMII false)
           (JH7110.dwmac false) JH7110.syscon_args JH7110.aon_regmap 0x4
           JH7110.boot).
  - reflexivity.
  - simpl. left. reflexivity.
  - reflexivity.
  - reflexivity.
  - reflexivity.
  - intros k Hk.
    assert (Hcases : k = 0 \/ k = 1 \/ k = 2) by lia.
    destruct Hcases as [-> | [-> | ->]]; reflexivity.
Defined.



(** ** More on the speed-change callback *)

(** One run of [starfive_eth_fix_mac_speed]: it returns, its calls are
    [fix_mac_speed_events], it leaves the registers alone, and the one clock
    whose rate it may change is [clk_tx], when the request is accepted. *)
Lemma fix_mac_speed_trace (h : host) (dwmac : starfive_dwmac) (speed : Z)
    (w : world) :
  exists w' : world,
    run (starfive_eth_fix_mac_speed h dwmac speed) w = Some (tt, w') /\
    trace w' = trace w ++ fix_mac_speed_events h dwmac speed /\
    regs w' = regs w /\
    (forall c : clk, c <> clk_tx dwmac -> rates w' c = rates w c) /\
    (tx_use_rgmii_rxin_clk dwmac = false ->
     let rate := load (u64 (uninit_ulong h)) (assigned_rate speed) in
     rates w' (clk_tx dwmac) =
       if clk_set_rate_status h (clk_tx dwmac) rate =? 0 then rate
       else rates w (clk_tx dwmac)).
Proof.
  unfold starfive_eth_fix_mac_speed, fix_mac_speed_events, assigned_rate.
  destruct (tx_use_rgmii_rxin_clk dwmac).
  - exists w. rewrite run_ret, app_nil_r.
    repeat split; try reflexivity. discriminate.
  - cbv zeta.
    destruct (speed =? SPEED_1000); [| destruct (speed =? SPEED_100);
      [| destruct (speed =? SPEED_10)]];
      run_steps;
      match goal with
      | |- context [clk_set_rate_status ?a ?b ?c =? 0] =>
          destruct (clk_set_rate_status a b c =? 0)
      end; run_steps.
    all: eexists; split; [reflexivity |].
    all: cbn [trace push set_rate regs rates app]; rewrite <- ?app_assoc.
    all: split; [reflexivity |]; split; [reflexivity |].
    all: split; [| intros _; rewrite ?Nat.eqb_refl; reflexivity].
    all: intros c Hc; try reflexivity.
    all: destruct (Nat.eqb_spec c (clk_tx dwmac));
      [contradiction | reflexivity].
Qed.

(** X15: when the clock framework refuses the rate of a speed of the table,
    the callback logs the failure together with the rate it asked for, after
    the request, and the rate of [clk_tx] stays what it was. *)
Theorem fix_mac_speed_refused_rate_logged (h : host) (dwmac : starfive_dwmac)
    (speed rate : Z) (w : world) :
  tx_use_rgmii_rxin_clk dwmac = false ->
  In (speed, rate) [(1000, 125000000); (100, 25000000); (10, 2500000)] ->
  clk_set_rate_status h (clk_tx dwmac) rate <> 0 ->
  exists w' : world,
    run (starfive_eth_fix_mac_speed h dwmac speed) w = Some (tt, w') /\
    trace w' =
      trace w ++ [ev_clk_set_rate (clk_tx dwmac) rate;
                  ev_dev_err (dev dwmac) "failed to set tx rate %lu"
                    [arg_uint rate]] /\
    rates w' (clk_tx dwmac) = rates w (clk_tx dwmac).
Proof.
  intros Hflag Hin Hfail.
  destruct (fix_mac_speed_trace h dwmac speed w)
    as (w' & Hrun & Ht & _ & _ & Hrate).
  specialize (Hrate Hflag). cbv zeta in Hrate.
  exists w'. split; [exact Hrun |].
  unfold fix_mac_speed_events in Ht. rewrite Hflag in Ht. cbv zeta in Ht.
  assert (Hsel : assigned_rate speed = Some rate).
  { cbn in Hin. destruct Hin as [E | [E | [E | []]]];
      injection E as <- <-; reflexivity. }
  rewrite Hsel in Ht, Hrate. cbn [load app] in Ht, Hrate.
  destruct (Z.eqb_spec (clk_set_rate_status h (clk_tx dwmac) rate) 0)
    as [E | _]; [contradiction |].
  split; assumption.
Qed.

(** X16: at any speed and with either setting of the flag, the callback
    returns, writes no register, never calls the stmmac core, leaves the
    registers and every clock other than [clk_tx] as they were, and makes at
    most one clock-rate request, which is on [clk_tx]. *)
Theorem fix_mac_speed_touches_only_tx_clock (h : host)
    (dwmac : starfive_dwmac) (speed : Z) (w : world) :
  exists (w' : world) (evs : list event),
    run (starfive_eth_fix_mac_speed h dwmac speed) w = Some (tt, w') /\
    trace w' = trace w ++ evs /\
    regs w' = regs w /\
    reg_writes evs = [] /\
    dvr_probes evs = [] /\
    (forall c : clk, c <> clk_tx dwmac -> rates w' c = rates w c) /\
    (clk_requests evs = [] \/
     exists rate : Z,
       clk_requests evs = [ev_clk_set_rate (clk_tx dwmac) rate]).
Proof.
  destruct (fix_mac_speed_trace h dwmac speed w)
    as (w' & Hrun & Ht & Hregs & Hother & _).
  exists w', (fix_mac_speed_events h dwmac speed).
  split; [exact Hrun |]. split; [exact Ht |]. split; [exact Hregs |].
  unfold fix_mac_speed_events, reg_writes, dvr_probes, clk_requests.
  destruct (tx_use_rgmii_rxin_clk dwmac).
  - repeat split; try reflexivity; try assumption. left. reflexivity.
  - cbv zeta. rewrite !filter_app.
    destruct (assigned_rate speed); cbn [load filter app
      is_regmap_update_bits is_stmmac_dvr_probe is_clk_set_rate];
      destruct (clk_set_rate_status h _ _ =? 0);
      cbn [filter is_regmap_update_bits is_stmmac_dvr_probe is_clk_set_rate];
      repeat split; try reflexivity; try assumption;
      right; eexists; reflexivity.
Qed.

(** ** More on probe *)

(** [starfive_dwmac_probe], path by path. *)
Lemma probe_paths (h : host) (pdev : platform_device) (w : world) :
  run (starfive_dwmac_probe h pdev) w =
  let r := stmmac_get_platform_resources h pdev in
  let d := pdev_dev pdev in
  if negb (fst r =? 0) then Some (fst r, w)
  else
    match stmmac_probe_config_dt h pdev (mac (snd r)) with
    | ERR_PTR e => Some (e, push (ev_dev_err d "dt configuration failed" []) w)
    | Valid plat_dat =>
        if negb (devm_kzalloc h) then Some (- ENOMEM, w)
        else
          match devm_clk_get_enabled_result h d "tx" with
          | ERR_PTR e =>
              Some (e, push (ev_dev_err_probe d e "error getting tx clock")
                         (push (ev_devm_clk_get_enabled d "tx") w))
          | Valid tx =>
              match devm_clk_get_enabled_result h d "gtx" with
              | ERR_PTR e =>
                  Some (e,
                        push (ev_dev_err_probe d e "error getting gtx clock")
                          (clocks_acquired pdev w))
              | Valid gtx =>
                  let plat := probe_plat_dat h pdev plat_dat tx gtx in
                  let status := stmmac_dvr_probe_status h d plat (snd r) in
                  match run (starfive_dwmac_set_mode h plat)
                          (clocks_acquired pdev w) with
                  | Some (_, w1) =>
                      Some (status,
                            if status =? 0
                            then push (ev_stmmac_dvr_probe d plat (snd r)) w1
                            else push (ev_stmmac_remove_config_dt pdev plat)
                                   (push (ev_stmmac_dvr_probe d plat (snd r))
                                      w1))
                  | None => None
                  end
              end
          end
    end.
Proof.
  cbv zeta.
  destruct (stmmac_get_platform_resources h pdev) as [err res] eqn:Hres.
  cbn [fst snd].
  destruct (Z.eqb_spec err 0) as [-> | Herr]; cbn [negb].
  - destruct (stmmac_probe_config_dt h pdev (mac res)) as [plat_dat | e]
      eqn:Hdt.
    + destruct (devm_kzalloc h) eqn:Hmem; cbn [negb].
      * destruct (devm_clk_get_enabled_result h (pdev_dev pdev) "tx")
          as [tx | e] eqn:Htx.
        -- destruct (devm_clk_get_enabled_result h (pdev_dev pdev) "gtx")
             as [gtx | e] eqn:Hgtx.
           ++ apply (probe_after_resources h pdev res plat_dat tx gtx w);
                assumption.
           ++ unfold starfive_dwmac_probe. rewrite Hres. cbn [Z.eqb negb].
              rewrite Hdt, Hmem. cbn [negb].
              rewrite run_bind, run_devm_clk_get_enabled, Htx.
              rewrite run_bind, run_devm_clk_get_enabled, Hgtx.
              apply run_dev_err_probe.
        -- unfold starfive_dwmac_probe. rewrite Hres. cbn [Z.eqb negb].
           rewrite Hdt, Hmem. cbn [negb].
           rewrite run_bind, run_devm_clk_get_enabled, Htx.
           apply run_dev_err_probe.
      * unfold starfive_dwmac_probe. rewrite Hres. cbn [Z.eqb negb].
        rewrite Hdt, Hmem. reflexivity.
    + unfold starfive_dwmac_probe. rewrite Hres. cbn [Z.eqb negb].
      rewrite Hdt. reflexivity.
  - unfold starfive_dwmac_probe. rewrite Hres.
    destruct (Z.eqb_spec err 0) as [E | _]; [contradiction |]. reflexivity.
Qed.

(** One run of [starfive_dwmac_probe]: it returns [probe_result], its calls
    are [probe_events], and it leaves the clock rates alone. *)
Lemma probe_trace (h : host) (pdev : platform_device) (w : world) :
  exists w' : world,
    run (starfive_dwmac_probe h pdev) w = Some (probe_result h pdev, w') /\
    trace w' = trace w ++ probe_events h pdev /\
    rates w' = rates w.
Proof.
  rewrite probe_paths. unfold probe_result, probe_events. cbv zeta.
  destruct (negb (fst (stmmac_get_platform_resources h pdev) =? 0)).
  { exists w. rewrite app_nil_r. repeat split; reflexivity. }
  destruct (stmmac_probe_config_dt h pdev _) as [plat_dat | e].
  2: { eexists. repeat split; reflexivity. }
  destruct (negb (devm_kzalloc h)).
  { exists w. rewrite app_nil_r. repeat split; reflexivity. }
  destruct (devm_clk_get_enabled_result h (pdev_dev pdev) "tx") as [tx | e].
  2: { eexists. split; [reflexivity |]. cbn [trace push rates].
       rewrite <- app_assoc. split; reflexivity. }
  destruct (devm_clk_get_enabled_result h (pdev_dev pdev) "gtx") as [gtx | e].
  2: { eexists. split; [reflexivity |].
       cbn [trace push rates clocks_acquired].
       rewrite <- !app_assoc. split; reflexivity. }
  destruct (set_mode_trace h (probe_plat_dat h pdev plat_dat tx gtx)
              (probe_dwmac h pdev tx gtx) (clocks_acquired pdev w) eq_refl)
    as (r & w1 & Hrun & Ht & Hr).
  rewrite Hrun. eexists. split; [reflexivity |].
  destruct (_ =? 0); cbn [trace push rates]; rewrite Ht, Hr;
    cbn [trace push rates clocks_acquired]; rewrite <- !app_assoc;
    split; reflexivity.
Qed.

(** What is never among the calls of [starfive_dwmac_set_mode]. *)
Lemma set_mode_events_kinds (h : host) (plat_dat : plat_stmmacenet_data)
    (dwmac : starfive_dwmac) :
  clk_requests (set_mode_events h plat_dat dwmac) = [] /\
  clk_gets (set_mode_events h plat_dat dwmac) = [] /\
  dvr_probes (set_mode_events h plat_dat dwmac) = [] /\
  config_removals (set_mode_events h plat_dat dwmac) = [] /\
  (List.length (reg_writes (set_mode_events h plat_dat dwmac)) <= 1)%nat.
Proof.
  unfold set_mode_events, switch_events, clk_requests, clk_gets, dvr_probes,
    config_removals, reg_writes.
  cbv zeta. rewrite !filter_app.
  destruct (assigned_mode (interface plat_dat)); cbn [filter app];
    destruct (negb _); cbn;
    try (repeat split; (reflexivity || lia));
    destruct (syscon_node_to_regmap h _); cbn;
    repeat split; (reflexivity || lia).
Qed.

(** X1: when [stmmac_get_platform_resources] fails, probe returns its error
    and has made no call: the world is the one it started from. *)
Theorem probe_without_resources (h : host) (pdev : platform_device)
    (w : world) :
  fst (stmmac_get_platform_resources h pdev) <> 0 ->
  run (starfive_dwmac_probe h pdev) w
    = Some (fst (stmmac_get_platform_resources h pdev), w).
Proof.
  intros Hfail. rewrite probe_paths. cbv zeta.
  destruct (Z.eqb_spec (fst (stmmac_get_platform_resources h pdev)) 0)
    as [E | _]; [contradiction | reflexivity].
Qed.

Lemma probe_without_resources_witness :
  run (starfive_dwmac_probe
         (Faults.failing
            (JH7110.board PHY_INTERFACE_MODE_RGMII true true true false 0)
            (- ENODEV) None true 0)
         JH7110.pdev) JH7110.boot
    = Some (- ENODEV, JH7110.boot).
Proof.
  apply (probe_without_resources
           (Faults.failing
              (JH7110.board PHY_INTERFACE_MODE_RGMII true true true false 0)
              (- ENODEV) None true 0)
           JH7110.pdev JH7110.boot).
  discriminate.
Defined.

(** X2: when [stmmac_probe_config_dt] fails, probe logs "dt configuration
    failed" and returns the error of the pointer; that log is its only call,
    so no clock is acquired. *)
Theorem probe_without_dt_configuration (h : host) (pdev : platform_device)
    (res : stmmac_resources) (e : Z) (w : world) :
  stmmac_get_platform_resources h pdev = (0, res) ->
  stmmac_probe_config_dt h pdev (mac res) = ERR_PTR e ->
  run (starfive_dwmac_probe h pdev) w
    = Some (e, push (ev_dev_err (pdev_dev pdev) "dt configuration failed" [])
                 w).
Proof.
  intros Hres Hdt. rewrite probe_paths, Hres. cbv zeta.
  cbn [fst snd Z.eqb negb]. rewrite Hdt. reflexivity.
Qed.

Lemma probe_without_dt_configuration_witness :
  run (starfive_dwmac_probe
         (Faults.failing
            (JH7110.board PHY_INTERFACE_MODE_RGMII true true true false 0)
            0 (Some (- EINVAL)) true 0)
         JH7110.pdev) JH7110.boot
    = Some (- EINVAL,
            push (ev_dev_err JH7110.gmac0 "dt configuration failed" [])
              JH7110.boot).
Proof.
  apply (probe_without_dt_configuration
           (Faults.failing
              (JH7110.board PHY_INTERFACE_MODE_RGMII true true true false 0)
              0 (Some (- EINVAL)) true 0)
           JH7110.pdev {| mac := 0 |} (- EINVAL) JH7110.boot);
    reflexivity.
Defined.

(** X3: when [devm_kzalloc] has no memory, probe returns -ENOMEM and has
    made no call: no clock is acquired, and the device-tree configuration it
    obtained is not removed. *)
Theorem probe_without_memory (h : host) (pdev : platform_device)
    (res : stmmac_resources) (plat_dat : plat_stmmacenet_data) (w : world) :
  stmmac_get_platform_resources h pdev = (0, res) ->
  stmmac_probe_config_dt h pdev (mac res) = Valid plat_dat ->
  devm_kzalloc h = false ->
  run (starfive_dwmac_probe h pdev) w = Some (- ENOMEM, w).
Proof.
  intros Hres Hdt Hmem. rewrite probe_paths, Hres. cbv zeta.
  cbn [fst snd Z.eqb negb]. rewrite Hdt, Hmem. reflexivity.
Qed.

Lemma probe_without_memory_witness :
  run (starfive_dwmac_probe
         (Faults.failing
            (JH7110.board PHY_INTERFACE_MODE_RGMII true true true false 0)
            0 None false 0)
         JH7110.pdev) JH7110.boot
    = Some (- ENOMEM, JH7110.boot).
Proof.
  apply (probe_without_memory
           (Faults.failing
              (JH7110.board PHY_INTERFACE_MODE_RGMII true true true false 0)
              0 None false 0)
           JH7110.pdev {| mac := 0 |}
           (JH7110.dt_plat PHY_INTERFACE_MODE_RGMII) JH7110.boot);
    reflexivity.
Defined.

(** X4: when the clock "tx" cannot be acquired, probe asks for no other
    clock: its calls are the request for "tx" and the error message, and it
    returns the error of "tx". *)
Theorem probe_tx_failure_skips_gtx (h : host) (pdev : platform_device)
    (res : stmmac_resources) (plat_dat : plat_stmmacenet_data) (e : Z)
    (w : world) :
  stmmac_get_platform_resources h pdev = (0, res) ->
  stmmac_probe_config_dt h pdev (mac res) = Valid plat_dat ->
  devm_kzalloc h = true ->
  devm_clk_get_enabled_result h (pdev_dev pdev) "tx" = ERR_PTR e ->
  exists w' : world,
    run (starfive_dwmac_probe h pdev) w = Some (e, w') /\
    trace w' =
      trace w ++ [ev_devm_clk_get_enabled (pdev_dev pdev) "tx";
                  ev_dev_err_probe (pdev_dev pdev) e
                    "error getting tx clock"].
Proof.
  intros Hres Hdt Hmem Htx. rewrite probe_paths, Hres. cbv zeta.
  cbn [fst snd Z.eqb negb]. rewrite Hdt, Hmem. cbn [negb]. rewrite Htx.
  eexists. split; [reflexivity |]. cbn [trace push].
  rewrite <- app_assoc. reflexivity.
Qed.

Lemma probe_tx_failure_skips_gtx_witness :
  exists w' : world,
    run (starfive_dwmac_probe
           (JH7110.board PHY_INTERFACE_MODE_RGMII true false true false 0)
           JH7110.pdev) JH7110.boot = Some (- ENOENT, w') /\
    trace w' =
      [ev_devm_clk_get_enabled JH7110.gmac0 "tx";
       ev_dev_err_probe JH7110.gmac0 (- ENOENT) "error getting tx clock"].
Proof.
  apply (probe_tx_failure_skips_gtx
           (JH7110.board PHY_INTERFACE_MODE_RGMII true false true false 0)
           JH7110.pdev {| mac := 0 |}
           (JH7110.dt_plat PHY_INTERFACE_MODE_RGMII) (- ENOENT) JH7110.boot);
    reflexivity.
Defined.

(** X7: probe always returns (it never reads through a NULL [bsp_priv]);
    it makes no clock-rate request and leaves every clock rate as it was, and
    it makes at most one register write and at most one call of
    [stmmac_dvr_probe]. *)
Theorem probe_never_sets_a_rate (h : host) (pdev : platform_device)
    (w : world) :
  exists (r : Z) (w' : world) (evs : list event),
    run (starfive_dwmac_probe h pdev) w = Some (r, w') /\
    trace w' = trace w ++ evs /\
    clk_requests evs = [] /\
    rates w' = rates w /\
    (List.length (reg_writes evs) <= 1)%nat /\
    (List.length (dvr_probes evs) <= 1)%nat.
Proof.
  destruct (probe_trace h pdev w) as (w' & Hrun & Ht & Hr).
  exists (probe_result h pdev), w', (probe_events h pdev).
  split; [exact Hrun |]. split; [exact Ht |].
  assert (Hkinds : clk_requests (probe_events h pdev) = [] /\
                   (List.length (reg_writes (probe_events h pdev)) <= 1)%nat /\
                   (List.length (dvr_probes (probe_events h pdev)) <= 1)%nat).
  { unfold probe_events. cbv zeta.
    destruct (negb (fst _ =? 0)); [cbn; repeat split; lia |].
    destruct (stmmac_probe_config_dt h pdev _) as [plat_dat | e];
      [| cbn; repeat split; lia].
    destruct (negb (devm_kzalloc h)); [cbn; repeat split; lia |].
    destruct (devm_clk_get_enabled_result h (pdev_dev pdev) "tx")
      as [tx | e]; [| cbn; repeat split; lia].
    destruct (devm_clk_get_enabled_result h (pdev_dev pdev) "gtx")
      as [gtx | e]; [| cbn; repeat split; lia].
    destruct (set_mode_events_kinds h (probe_plat_dat h pdev plat_dat tx gtx)
                (probe_dwmac h pdev tx gtx))
      as (Hc & _ & Hd & _ & Hw).
    unfold clk_requests, reg_writes, dvr_probes in *.
    cbn [filter is_clk_set_rate is_regmap_update_bits is_stmmac_dvr_probe].
    rewrite !filter_app, Hc, Hd.
    destruct (_ =? 0);
      cbn [filter is_clk_set_rate is_regmap_update_bits is_stmmac_dvr_probe
             app List.length];
      rewrite ?app_nil_r; repeat split; (reflexivity || lia). }
  destruct Hkinds as (Hc & Hw & Hd). repeat split; assumption.
Qed.


(** X5: on a host whose error pointers carry a non-zero errno, probe
    returns 0 only when it has acquired "tx" and then "gtx", has called
    [stmmac_dvr_probe] once and that call returned 0, and has not removed the
    device-tree configuration. *)
Theorem probe_success_means_core_probed (h : host) (pdev : platform_device)
    (w w' : world) :
  err_ptrs_nonzero h ->
  run (starfive_dwmac_probe h pdev) w = Some (0, w') ->
  exists (evs : list event) (plat : plat_stmmacenet_data)
         (res : stmmac_resources),
    trace w' = trace w ++ evs /\
    clk_gets evs =
      [ev_devm_clk_get_enabled (pdev_dev pdev) "tx";
       ev_devm_clk_get_enabled (pdev_dev pdev) "gtx"] /\
    dvr_probes evs = [ev_stmmac_dvr_probe (pdev_dev pdev) plat res] /\
    stmmac_dvr_probe_status h (pdev_dev pdev) plat res = 0 /\
    config_removals evs = [].
Proof.
  intros [Hdt Hclk] Hrun.
  destruct (probe_trace h pdev w) as (w'' & Hrun' & Ht & _).
  rewrite Hrun in Hrun'. injection Hrun' as Hres <-.
  exists (probe_events h pdev).
  revert Hres Ht. unfold probe_events, probe_result. cbv zeta.
  destruct (Z.eqb_spec (fst (stmmac_get_platform_resources h pdev)) 0)
    as [E | E]; cbn [negb]; [| intros Hres; congruence].
  destruct (stmmac_probe_config_dt h pdev _) as [plat_dat | e] eqn:Edt;
    [| intros <-; exfalso; exact (Hdt _ _ Edt)].
  destruct (negb (devm_kzalloc h)); [discriminate |].
  destruct (devm_clk_get_enabled_result h (pdev_dev pdev) "tx")
    as [tx | e] eqn:Etx; [| intros <-; exfalso; exact (Hclk _ _ Etx)].
  destruct (devm_clk_get_enabled_result h (pdev_dev pdev) "gtx")
    as [gtx | e] eqn:Egtx; [| intros <-; exfalso; exact (Hclk _ _ Egtx)].
  intros Hres Ht.
  exists (probe_plat_dat h pdev plat_dat tx gtx),
    (snd (stmmac_get_platform_resources h pdev)).
  split; [exact Ht |].
  destruct (set_mode_events_kinds h (probe_plat_dat h pdev plat_dat tx gtx)
              (probe_dwmac h pdev tx gtx))
    as (_ & Hg & Hd & Hx & _).
  unfold clk_gets, config_removals, dvr_probes in *.
  cbn [filter is_devm_clk_get_enabled is_stmmac_remove_config_dt
         is_stmmac_dvr_probe].
  rewrite !filter_app, Hg, Hd, Hx, <- Hres.
  repeat split; reflexivity.
Qed.

(** The boards of [JH7110] are such hosts. *)
Lemma board_err_ptrs_nonzero (i : phy_interface_t)
    (has_syscon has_tx has_gtx rgmii_rxin : bool) (dvr_status : Z) :
  err_ptrs_nonzero
    (JH7110.board i has_syscon has_tx has_gtx rgmii_rxin dvr_status).
Proof.
  split.
  - intros p m. discriminate.
  - intros d id. cbn.
    destruct (String.eqb id "tx"); [destruct has_tx; discriminate |].
    destruct (String.eqb id "gtx"); [destruct has_gtx; discriminate |].
    discriminate.
Qed.

Lemma probe_success_means_core_probed_witness :
  exists (w' : world) (evs : list event) (plat : plat_stmmacenet_data)
         (res : stmmac_resources),
    run (starfive_dwmac_probe
           (JH7110.board PHY_INTERFACE_MODE_RGMII true true true false 0)
           JH7110.pdev) JH7110.boot = Some (0, w') /\
    trace w' = trace JH7110.boot ++ evs /\
    clk_gets evs =
      [ev_devm_clk_get_enabled JH7110.gmac0 "tx";
       ev_devm_clk_get_enabled JH7110.gmac0 "gtx"] /\
    dvr_probes evs = [ev_stmmac_dvr_probe JH7110.gmac0 plat res] /\
    stmmac_dvr_probe_status
      (JH7110.board PHY_INTERFACE_MODE_RGMII true true true false 0)
      JH7110.gmac0 plat res = 0 /\
    config_removals evs = [].
Proof.
  eexists.
  assert (Hrun :
            run (starfive_dwmac_probe
                   (JH7110.board PHY_INTERFACE_MODE_RGMII true true true
                      false 0)
                   JH7110.pdev) JH7110.boot = Some (0, _))
    by reflexivity.
  destruct (probe_success_means_core_probed _ _ _ _
              (board_err_ptrs_nonzero PHY_INTERFACE_MODE_RGMII true true true
                 false 0) Hrun)
    as (evs & plat & res & H).
  exists evs, plat, res. split; [exact Hrun | exact H].
Defined.

(** X8: once its resources are there, probe hands one platform data to
    [stmmac_dvr_probe]: the interface of the device tree, the callback
    [starfive_eth_fix_mac_speed], no [init], [dche] set, and as [bsp_priv] a
    record on which the callback does nothing when the device has the
    property "starfive,tx-use-rgmii-clk", and otherwise asks the clock
    acquired as "tx" for the rate of each speed of the table. *)
Theorem probe_hands_over_callback (h : host) (pdev : platform_device)
    (res : stmmac_resources) (plat_dat : plat_stmmacenet_data) (tx gtx : clk)
    (w : world) :
  stmmac_get_platform_resources h pdev = (0, res) ->
  stmmac_probe_config_dt h pdev (mac res) = Valid plat_dat ->
  devm_kzalloc h = true ->
  devm_clk_get_enabled_result h (pdev_dev pdev) "tx" = Valid tx ->
  devm_clk_get_enabled_result h (pdev_dev pdev) "gtx" = Valid gtx ->
  exists (r : Z) (w' : world) (evs : list event)
         (plat : plat_stmmacenet_data) (dwmac : starfive_dwmac),
    run (starfive_dwmac_probe h pdev) w = Some (r, w') /\
    trace w' = trace w ++ evs /\
    dvr_probes evs = [ev_stmmac_dvr_probe (pdev_dev pdev) plat res] /\
    interface plat = interface plat_dat /\
    fix_mac_speed plat = Some fn_starfive_eth_fix_mac_speed /\
    init plat = None /\
    dma_cfg_dche plat = true /\
    bsp_priv plat = Some dwmac /\
    (device_property_read_bool h (pdev_dev pdev) "starfive,tx-use-rgmii-clk"
       = true ->
     forall (speed : Z) (w2 : world),
       run (starfive_eth_fix_mac_speed h dwmac speed) w2 = Some (tt, w2)) /\
    (device_property_read_bool h (pdev_dev pdev) "starfive,tx-use-rgmii-clk"
       = false ->
     forall (speed rate : Z) (w2 : world),
       In (speed, rate) [(1000, 125000000); (100, 25000000); (10, 2500000)] ->
       exists (w3 : world) (evs2 : list event),
         run (starfive_eth_fix_mac_speed h dwmac speed) w2 = Some (tt, w3) /\
         trace w3 = trace w2 ++ evs2 /\
         clk_requests evs2 = [ev_clk_set_rate tx rate]).
Proof.
  intros Hres Hdt Hmem Htx Hgtx.
  destruct (probe_trace h pdev w) as (w' & Hrun & Ht & _).
  exists (probe_result h pdev), w', (probe_events h pdev),
    (probe_plat_dat h pdev plat_dat tx gtx), (probe_dwmac h pdev tx gtx).
  split; [exact Hrun |]. split; [exact Ht |]. split.
  { unfold probe_events. cbv zeta. rewrite Hres. cbn [fst snd Z.eqb negb].
    rewrite Hdt, Hmem. cbn [negb]. rewrite Htx, Hgtx.
    destruct (set_mode_events_kinds h (probe_plat_dat h pdev plat_dat tx gtx)
                (probe_dwmac h pdev tx gtx))
      as (_ & _ & Hd & _ & _).
    unfold dvr_probes in *. cbn [filter is_stmmac_dvr_probe].
    rewrite !filter_app, Hd. destruct (_ =? 0); reflexivity. }
  do 5 (split; [reflexivity |]). split.
  - intros Hflag speed w2. unfold starfive_eth_fix_mac_speed.
    cbn [tx_use_rgmii_rxin_clk probe_dwmac]. rewrite Hflag. apply run_ret.
  - intros Hflag speed rate w2 Hin.
    destruct (fix_mac_speed_trace h (probe_dwmac h pdev tx gtx) speed w2)
      as (w3 & Hrun3 & Ht3 & _).
    exists w3, (fix_mac_speed_events h (probe_dwmac h pdev tx gtx) speed).
    split; [exact Hrun3 |]. split; [exact Ht3 |].
    unfold fix_mac_speed_events.
    cbn [tx_use_rgmii_rxin_clk clk_tx dev probe_dwmac]. rewrite Hflag.
    assert (Hsel : assigned_rate speed = Some rate).
    { cbn in Hin. destruct Hin as [E | [E | [E | []]]];
        injection E as <- <-; reflexivity. }
    rewrite Hsel. cbv zeta. cbn [load app]. unfold clk_requests.
    destruct (_ =? 0); reflexivity.
Qed.

Lemma probe_hands_over_callback_witness :
  exists (r : Z) (w' : world) (evs : list event)
         (plat : plat_stmmacenet_data) (dwmac : starfive_dwmac),
    run (starfive_dwmac_probe
           (JH7110.board PHY_INTERFACE_MODE_RGMII true true true false 0)
           JH7110.pdev) JH7110.boot = Some (r, w') /\
    trace w' = trace JH7110.boot ++ evs /\
    dvr_probes evs = [ev_stmmac_dvr_probe JH7110.gmac0 plat {| mac := 0 |}] /\
    interface plat = PHY_INTERFACE_MODE_RGMII /\
    fix_mac_speed plat = Some fn_starfive_eth_fix_mac_speed /\
    init plat = None /\
    dma_cfg_dche plat = true /\
    bsp_priv plat = Some dwmac /\
    (false = true ->
     forall (speed : Z) (w2 : world),
       run (starfive_eth_fix_mac_speed
              (JH7110.board PHY_INTERFACE_MODE_RGMII true true true false 0)
              dwmac speed) w2 = Some (tt, w2)) /\
    (false = false ->
     forall (speed rate : Z) (w2 : world),
       In (speed, rate) [(1000, 125000000); (100, 25000000); (10, 2500000)] ->
       exists (w3 : world) (evs2 : list event),
         run (starfive_eth_fix_mac_speed
                (JH7110.board PHY_INTERFACE_MODE_RGMII true true true false 0)
                dwmac speed) w2 = Some (tt, w3) /\
         trace w3 = trace w2 ++ evs2 /\
         clk_requests evs2 = [ev_clk_set_rate JH7110.gmac0_tx rate]).
Proof.
  apply (probe_hands_over_callback
           (JH7110.board PHY_INTERFACE_MODE_RGMII true true true false 0)
           JH7110.pdev {| mac := 0 |}
           (JH7110.dt_plat PHY_INTERFACE_MODE_RGMII)
           JH7110.gmac0_tx JH7110.gmac0_gtx JH7110.boot); reflexivity.
Defined.

Lemma fix_mac_speed_refused_rate_logged_witness :
  exists w' : world,
    run (starfive_eth_fix_mac_speed
           (Faults.failing
              (JH7110.board PHY_INTERFACE_MODE_RGMII true true true false 0)
              0 None true (- EINVAL))
           (JH7110.dwmac false) 1000) JH7110.boot = Some (tt, w') /\
    trace w' =
      [ev_clk_set_rate JH7110.gmac0_tx 125000000;
       ev_dev_err JH7110.gmac0 "failed to set tx rate %lu"
         [arg_uint 125000000]] /\
    rates w' JH7110.gmac0_tx = 0.
Proof.
  apply (fix_mac_speed_refused_rate_logged
           (Faults.failing
              (JH7110.board PHY_INTERFACE_MODE_RGMII true true true false 0)
              0 None true (- EINVAL))
           (JH7110.dwmac false) 1000 125000000 JH7110.boot).
  - reflexivity.
  - simpl. left. reflexivity.
  - discriminate.
Defined.

(** X9: when the resources, the phandle and the register map are all
    found, probe writes the mode register right before it calls
    [stmmac_dvr_probe], after both clocks were acquired; there is no other
    register write and no other call of the stmmac core. *)
Theorem probe_writes_mode_before_core (h : host) (pdev : platform_device)
    (res : stmmac_resources) (plat_dat : plat_stmmacenet_data) (tx gtx : clk)
    (a : of_phandle_args) (map : regmap) (w : world) :
  stmmac_get_platform_resources h pdev = (0, res) ->
  stmmac_probe_config_dt h pdev (mac res) = Valid plat_dat ->
  devm_kzalloc h = true ->
  devm_clk_get_enabled_result h (pdev_dev pdev) "tx" = Valid tx ->
  devm_clk_get_enabled_result h (pdev_dev pdev) "gtx" = Valid gtx ->
  of_parse_phandle_with_fixed_args h (of_node (pdev_dev pdev))
    "starfive,syscon" 2 0 = (0, a) ->
  syscon_node_to_regmap h (np a) = Valid map ->
  exists (r : Z) (w' : world) (before after : list event) (val : Z),
    run (starfive_dwmac_probe h pdev) w = Some (r, w') /\
    trace w' =
      trace w ++ before
              ++ ev_regmap_update_bits map (u32 (nth 0 (args a) 0))
                   (u32 (nth 1 (args a) 0)) val
              :: ev_stmmac_dvr_probe (pdev_dev pdev)
                   (probe_plat_dat h pdev plat_dat tx gtx) res
              :: after /\
    clk_gets before =
      [ev_devm_clk_get_enabled (pdev_dev pdev) "tx";
       ev_devm_clk_get_enabled (pdev_dev pdev) "gtx"] /\
    reg_writes before = [] /\
    dvr_probes before = [] /\
    reg_writes after = [] /\
    dvr_probes after = [].
Proof.
  intros Hres Hdt Hmem Htx Hgtx Hargs Hmap.
  destruct (probe_trace h pdev w) as (w' & Hrun & Ht & _).
  exists (probe_result h pdev), w'.
  revert Ht. unfold probe_events, set_mode_events. cbv zeta.
  rewrite Hres. cbn [fst snd Z.eqb negb]. rewrite Hdt, Hmem. cbn [negb].
  rewrite Htx, Hgtx. cbn [dev probe_dwmac]. rewrite Hargs.
  cbn [fst snd Z.eqb negb]. rewrite Hmap. intros Ht.
  exists ([ev_devm_clk_get_enabled (pdev_dev pdev) "tx";
           ev_devm_clk_get_enabled (pdev_dev pdev) "gtx"]
          ++ switch_events (probe_dwmac h pdev tx gtx) (interface plat_dat)
          ++ [ev_of_node_put (np a)]).
  eexists. eexists. split; [exact Hrun |]. split.
  { rewrite Ht. cbn [app interface probe_plat_dat]. rewrite <- !app_assoc.
    reflexivity. }
  unfold clk_gets, reg_writes, dvr_probes, switch_events.
  destruct (assigned_mode (interface plat_dat)); destruct (_ =? 0);
    repeat split; reflexivity.
Qed.

Lemma probe_writes_mode_before_core_witness :
  exists (r : Z) (w' : world) (before after : list event) (val : Z),
    run (starfive_dwmac_probe
           (JH7110.board PHY_INTERFACE_MODE_RMII true true true false 0)
           JH7110.pdev) JH7110.boot = Some (r, w') /\
    trace w' =
      trace JH7110.boot ++ before
              ++ ev_regmap_update_bits JH7110.aon_regmap 0xc 0x1c0000 val
              :: ev_stmmac_dvr_probe JH7110.gmac0
                   (JH7110.plat PHY_INTERFACE_MODE_RMII false) {| mac := 0 |}
              :: after /\
    clk_gets before =
      [ev_devm_clk_get_enabled JH7110.gmac0 "tx";
       ev_devm_clk_get_enabled JH7110.gmac0 "gtx"] /\
    reg_writes before = [] /\
    dvr_probes before = [] /\
    reg_writes after = [] /\
    dvr_probes after = [].
Proof.
  apply (probe_writes_mode_before_core
           (JH7110.board PHY_INTERFACE_MODE_RMII true true true false 0)
           JH7110.pdev {| mac := 0 |}
           (JH7110.dt_plat PHY_INTERFACE_MODE_RMII)
           JH7110.gmac0_tx JH7110.gmac0_gtx JH7110.syscon_args
           JH7110.aon_regmap JH7110.boot); reflexivity.
Defined.
